(** * TOON export of a Docling document: [docling/utils/toon_export.py]

    The module holds one function, [save_as_toon].  It checks that the
    optional [toon] codec was importable, dumps the document to a plain
    mapping, lets the codec encode the mapping, makes sure the parent
    directory of the destination exists and writes the text there.

    The function is embedded as a program in a state-and-exception monad
    over a [World]: the object the [doc] parameter refers to, the file
    system, the records handed to the module logger and the sequence of
    calls made to the collaborators (logger, document, codec, [pathlib],
    [open]).  The collaborators themselves are not part of the module:
    the document and the codec are records of their methods, the file
    system follows POSIX and [pathlib], with a fault policy standing for
    permission and disk-space errors. *)

From Stdlib Require Import NArith ZArith Floats.SpecFloat.
From stdpp Require Import gmap list strings.

Set Default Proof Using "Type".
Set Warnings "-register-all".

Local Open Scope N_scope.

(** ** Python values *)

(** A Python [str] is a sequence of Unicode code points. *)
Abbreviation str := (list N).
(** File contents are bytes, each below 256. *)
Abbreviation bytes := (list N).

(** The code points of an ASCII literal. *)
Definition lit (s : string) : str :=
  map (fun a => Ascii.N_of_ascii a) (String.list_ascii_of_string s).

(** [needle in haystack] on [str]. *)
Fixpoint startswith (s prefix : str) : bool :=
  match prefix, s with
  | [], _ => true
  | _ :: _, [] => false
  | a :: prefix', b :: s' => (a =? b) && startswith s' prefix'
  end.

Fixpoint contains (haystack needle : str) : bool :=
  startswith haystack needle ||
  match haystack with
  | [] => false
  | _ :: rest => contains rest needle
  end.

(** JSON-compatible values, what [model_dump(mode="json")] yields.  A
    [dict] keeps its insertion order. *)
Inductive JSON : Type :=
| JNull
| JBool (b : bool)
| JInt (z : Z)
| JFloat (f : spec_float)
| JStr (s : str)
| JList (items : list JSON)
| JDict (entries : list (str * JSON)).

Definition is_dict (v : JSON) : bool :=
  match v with JDict _ => true | _ => false end.

(** A mapping with at least one key. *)
Definition has_field (v : JSON) : bool :=
  match v with JDict (_ :: _) => true | _ => false end.

(** Keyword arguments of a call, in the order they are written. *)
Inductive Arg : Type :=
| AStr (s : str)
| ABool (b : bool).

Abbreviation Kwargs := (list (string * Arg)).

(** ** Paths

    A path is its list of components below the base directory (the root
    for an absolute path, the working directory for a relative one),
    innermost component first: [Path("out/a/doc.toon")] is
    [["doc.toon"; "a"; "out"]] and the base directory itself is [[]].
    [Path.parent] drops the innermost component; the parent of the base
    directory is the base directory. *)
Abbreviation Path := (list str).

Definition parent (p : Path) : Path := tail p.

(** [str(path)]: the components joined by a slash, outermost first. *)
Fixpoint join_slash (components : list str) : str :=
  match components with
  | [] => []
  | [c] => c
  | c :: rest => c ++ lit "/" ++ join_slash rest
  end.

Definition path_str (p : Path) : str :=
  match p with
  | [] => lit "."
  | _ => join_slash (rev p)
  end.

(** ** Exceptions *)

Inductive Errno : Type :=
| ENOENT    (* FileNotFoundError *)
| EEXIST    (* FileExistsError *)
| ENOTDIR   (* NotADirectoryError *)
| EISDIR    (* IsADirectoryError *)
| EACCES    (* PermissionError *)
| EROFS
| ENOSPC
| EIO.

Inductive Exception : Type :=
| ImportError (msg : str)
| OSError (errno : Errno) (filename : Path)
| UnicodeEncodeError (encoding : str) (position : nat)
| AttributeError (msg : str)
| PyError (cls : string) (msg : str).   (* any other exception class *)

Inductive Result (A : Type) : Type :=
| Ok (a : A)
| Raise (e : Exception).
Arguments Ok {A} a.
Arguments Raise {A} e.

(** ** The collaborators as records of their methods *)

(** [DoclingDocument]: only [model_dump] is used. *)
Record DoclingDocument : Type := {
  model_dump : Kwargs -> Result JSON
}.

(** The [toon] package: the module uses [encode] only. *)
Record ToonModule : Type := {
  encode : JSON -> Result str
}.

(** ** Text encoding *)

Inductive Platform : Type := Posix | Windows.

Definition linesep (pf : Platform) : str :=
  match pf with
  | Posix => [10]
  | Windows => [13; 10]
  end.

(** Text mode with the default [newline=None]: every line feed written
    becomes [os.linesep]. *)
Definition translate_newlines (pf : Platform) (s : str) : str :=
  flat_map (fun c => if c =? 10 then linesep pf else [c]) s.

(** UTF-8 of one code point; surrogates cannot be encoded. *)
Definition utf8_char (c : N) : option bytes :=
  if c <? 0x80 then Some [c]
  else if c <? 0x800 then
    Some [N.lor 0xC0 (N.shiftr c 6); N.lor 0x80 (N.land c 0x3F)]
  else if c <? 0x10000 then
    if (0xD800 <=? c) && (c <=? 0xDFFF) then None
    else Some [N.lor 0xE0 (N.shiftr c 12);
               N.lor 0x80 (N.land (N.shiftr c 6) 0x3F);
               N.lor 0x80 (N.land c 0x3F)]
  else if c <? 0x110000 then
    Some [N.lor 0xF0 (N.shiftr c 18);
          N.lor 0x80 (N.land (N.shiftr c 12) 0x3F);
          N.lor 0x80 (N.land (N.shiftr c 6) 0x3F);
          N.lor 0x80 (N.land c 0x3F)]
  else None.

Fixpoint utf8_from (pos : nat) (s : str) : Result bytes :=
  match s with
  | [] => Ok []
  | c :: rest =>
      match utf8_char c with
      | None => Raise (UnicodeEncodeError (lit "utf-8") pos)
      | Some bs =>
          match utf8_from (S pos) rest with
          | Ok tl => Ok (bs ++ tl)
          | Raise e => Raise e
          end
      end
  end.

(** What a text file opened with [encoding] hands to the operating
    system for [s].  Only UTF-8 is known to the model. *)
Definition text_encode (pf : Platform) (encoding : str) (s : str) : Result bytes :=
  if decide (encoding = lit "utf-8")
  then utf8_from 0 (translate_newlines pf s)
  else Raise (PyError "LookupError" (lit "unknown encoding: " ++ encoding)).

(** ** The world *)

(** The file system: what each path below the base directory holds. *)
Inductive Node : Type :=
| File (content : bytes)
| Dir.

Abbreviation FS := (gmap Path Node).

(** A record handed to a handler of the module logger
    [logging.getLogger("docling.utils.toon_export")]. *)
Record LogRecord : Type := {
  levelname : string;
  message : str
}.

(** References to document objects. *)
Abbreviation ref := nat.

Inductive OpenMode : Type :=
| mode_w    (* "w": create, truncate *)
| mode_a    (* "a": create, append *)
| mode_x.   (* "x": create, fail if the path exists *)

(** The calls [save_as_toon] makes to its collaborators. *)
Inductive Call : Type :=
| CallLogInfo (msg : str)
| CallModelDump (doc : ref) (kwargs : Kwargs)
| CallEncode (value : JSON)
| CallMkdir (p : Path) (parents exist_ok : bool)
| CallOpen (p : Path) (mode : OpenMode) (encoding : str)
| CallWrite (p : Path) (text : str)
| CallClose (p : Path).

Record World : Type := {
  heap : ref -> DoclingDocument;   (* the document objects *)
  fs : gmap Path Node;
  log : list LogRecord;            (* records emitted by the module logger *)
  calls : list Call                (* calls made so far, oldest first *)
}.

Definition set_fs (f : gmap Path Node) (w : World) : World :=
  {| heap := heap w; fs := f; log := log w; calls := calls w |}.

Definition add_log (r : LogRecord) (w : World) : World :=
  {| heap := heap w; fs := fs w; log := log w ++ [r]; calls := calls w |}.

Definition add_call (c : Call) (w : World) : World :=
  {| heap := heap w; fs := fs w; log := log w; calls := calls w ++ [c] |}.

(** ** State and exceptions *)

Definition M (A : Type) : Type := World -> Result A * World.

Definition ret {A} (a : A) : M A := fun w => (Ok a, w).

Definition raise {A} (e : Exception) : M A := fun w => (Raise e, w).

Definition bind {A B} (m : M A) (k : A -> M B) : M B := fun w =>
  match m w with
  | (Ok a, w') => k a w'
  | (Raise e, w') => (Raise e, w')
  end.

(** [try: m  except Exception as e: handler e] *)
Definition try_except {A} (m : M A) (handler : Exception -> M A) : M A := fun w =>
  match m w with
  | (Ok a, w') => (Ok a, w')
  | (Raise e, w') => handler e w'
  end.

(** [try: m  finally: cleanup]; an exception of the cleanup wins. *)
Definition finally {A} (m : M A) (cleanup : M unit) : M A := fun w =>
  match m w with
  | (r, w') =>
      match cleanup w' with
      | (Ok _, w'') => (r, w'')
      | (Raise e, w'') => (Raise e, w'')
      end
  end.

Declare Scope py_scope.
Delimit Scope py_scope with py.
Notation "x <- m ;; k" := (bind m (fun x => k))
  (at level 100, m at next level, right associativity) : py_scope.
Notation "m ;; k" := (bind m (fun _ => k))
  (at level 100, right associativity) : py_scope.
Local Open Scope py_scope.

Definition called (c : Call) : M unit := fun w => (Ok tt, add_call c w).

(** ** The operating system *)

Inductive Syscall : Type :=
| SysMkdir (p : Path)
| SysOpen (p : Path) (mode : OpenMode)
| SysWrite (p : Path) (data : bytes).

(** Path resolution: every component above the last has to be a
    directory.  The base directory always exists. *)
Fixpoint stat (f : gmap Path Node) (p : Path) : Errno + Node :=
  match p with
  | [] => inr Dir
  | _ :: up =>
      match stat f up with
      | inl e => inl e
      | inr (File _) => inl ENOTDIR
      | inr Dir =>
          match f !! p with
          | Some n => inr n
          | None => inl ENOENT
          end
      end
  end.

(** [Path.is_dir()] *)
Definition is_dir (f : gmap Path Node) (p : Path) : bool :=
  match stat f p with
  | inr Dir => true
  | _ => false
  end.

(** [Path.exists()] *)
Definition exists_ (f : gmap Path Node) (p : Path) : bool :=
  match stat f p with
  | inr _ => true
  | inl _ => false
  end.

(** [Path.stat().st_size] of a regular file. *)
Definition st_size (f : gmap Path Node) (p : Path) : option nat :=
  match stat f p with
  | inr (File content) => Some (length content)
  | _ => None
  end.

(** An open text file. *)
Record TextIOWrapper : Type := {
  name : Path;
  encoding : str
}.

(** What the module finds around it when it runs. *)
Record Host : Type := {
  (** The module global [toon]: the imported package, or [None] when
      the import failed. *)
  toon : option ToonModule;
  (** Whether the module logger is enabled for level INFO. *)
  info_enabled : bool;
  platform : Platform;
  (** The errors a system call meets that the shape of the tree does not
      explain (permissions, read-only or full device), and how many
      bytes of a failing write reached the file. *)
  denied : gmap Path Node -> Syscall -> option Errno;
  short_write : gmap Path Node -> Path -> bytes -> nat
}.

(** The codec turns a mapping with at least one key into text that is
    not empty. *)
Definition codec_nonempty (codec : ToonModule) : Prop :=
  forall m text, has_field m = true -> encode codec m = Ok text -> text <> [].

(** Every entry of a well-formed tree lies in a directory that can be
    reached. *)
Definition wf (f : gmap Path Node) : Prop :=
  map_Forall (fun q _ => q = [] \/ stat f (parent q) = inr Dir) f.

(** Directories were added on the way to [p], nothing else changed. *)
Definition dirs_added (f f' : gmap Path Node) (p : Path) : Prop :=
  forall q, f' !! q = f !! q \/
            (f !! q = None /\ f' !! q = Some Dir /\ q `suffix_of` p).


(** What an export to [p] may do to the tree: add directories on the
    way to the parent of [p], and put a regular file at [p] where no
    directory was. *)
Definition export_frame (f f' : gmap Path Node) (p : Path) : Prop :=
  forall q, f' !! q = f !! q \/
            (f !! q = None /\ f' !! q = Some Dir /\ q `suffix_of` parent p) \/
            (q = p /\ f !! p <> Some Dir /\ exists data, f' !! p = Some (File data)).

(** From [w] to [w'] the calls [cs] were made and the records [rs]
    were logged; the document objects are the same. *)
Definition step_effect (w w' : World) (cs : list Call) (rs : list LogRecord) : Prop :=
  heap w' = heap w /\ calls w' = calls w ++ cs /\ log w' = log w ++ rs.

(** The calls that reach the file system. *)
Definition is_fs_call (c : Call) : bool :=
  match c with
  | CallMkdir _ _ _ | CallOpen _ _ _ | CallWrite _ _ | CallClose _ => true
  | CallLogInfo _ | CallModelDump _ _ | CallEncode _ => false
  end.

(** Only the file system differs between two worlds. *)
Definition same_but_fs (w w' : World) : Prop :=
  heap w' = heap w /\ log w' = log w /\ calls w' = calls w.

Section SaveAsToon.

Variable host : Host.

(** [os.mkdir(p)] *)
Definition os_mkdir (p : Path) : M unit := fun w =>
  match denied host (fs w) (SysMkdir p) with
  | Some e => (Raise (OSError e p), w)
  | None =>
      match p with
      | [] => (Raise (OSError EEXIST p), w)
      | _ :: up =>
          match stat (fs w) up with
          | inl e => (Raise (OSError e p), w)
          | inr (File _) => (Raise (OSError ENOTDIR p), w)
          | inr Dir =>
              match fs w !! p with
              | Some _ => (Raise (OSError EEXIST p), w)
              | None => (Ok tt, set_fs (<[p := Dir]> (fs w)) w)
              end
          end
      end
  end.

(** The handler for an [OSError] that is not a [FileNotFoundError]:
    [if not exist_ok or not self.is_dir(): raise]. *)
Definition mkdir_exists (p : Path) (exist_ok : bool) (e : Exception) : M unit := fun w =>
  if negb exist_ok || negb (is_dir (fs w) p) then (Raise e, w) else (Ok tt, w).

(** [self.mkdir(mode, parents=False, exist_ok=exist_ok)] *)
Definition mkdir_single (p : Path) (exist_ok : bool) : M unit :=
  try_except (os_mkdir p) (fun e =>
    match e with
    | OSError ENOENT _ => raise e
    | OSError _ _ => mkdir_exists p exist_ok e
    | _ => raise e
    end).

(** [pathlib.Path.mkdir(parents, exist_ok)] *)
Fixpoint mkdir (p : Path) (parents exist_ok : bool) : M unit :=
  try_except (os_mkdir p) (fun e =>
    match e with
    | OSError ENOENT _ =>
        match p with
        | [] => raise e
        | _ :: up =>
            if negb parents then raise e
            else mkdir up true true ;; mkdir_single p exist_ok
        end
    | OSError _ _ => mkdir_exists p exist_ok e
    | _ => raise e
    end).

Definition Path_mkdir (p : Path) (parents exist_ok : bool) : M unit :=
  called (CallMkdir p parents exist_ok) ;;
  mkdir p parents exist_ok.

(** [open(p, mode, encoding=encoding)] for the writing modes. *)
Definition os_open (p : Path) (mode : OpenMode) : M unit := fun w =>
  match denied host (fs w) (SysOpen p mode) with
  | Some e => (Raise (OSError e p), w)
  | None =>
      match p with
      | [] => (Raise (OSError EISDIR p), w)
      | _ :: up =>
          match stat (fs w) up with
          | inl e => (Raise (OSError e p), w)
          | inr (File _) => (Raise (OSError ENOTDIR p), w)
          | inr Dir =>
              match fs w !! p, mode with
              | Some Dir, _ => (Raise (OSError EISDIR p), w)
              | Some (File _), mode_x => (Raise (OSError EEXIST p), w)
              | Some (File _), mode_a => (Ok tt, w)
              | _, _ => (Ok tt, set_fs (<[p := File []]> (fs w)) w)
              end
          end
      end
  end.

Definition open_ (p : Path) (mode : OpenMode) (enc : str) : M TextIOWrapper :=
  called (CallOpen p mode enc) ;;
  os_open p mode ;;
  ret {| name := p; encoding := enc |}.

(** The bytes go to the end of the file. *)
Definition os_write (p : Path) (data : bytes) : M unit := fun w =>
  match fs w !! p with
  | Some (File old) =>
      match denied host (fs w) (SysWrite p data) with
      | Some e =>
          (Raise (OSError e p),
           set_fs (<[p := File (old ++ take (short_write host (fs w) p data) data)]> (fs w)) w)
      | None => (Ok tt, set_fs (<[p := File (old ++ data)]> (fs w)) w)
      end
  | _ => (Raise (OSError EIO p), w)
  end.

(** [f.write(s)], flushed; the number of characters written. *)
Definition write (f : TextIOWrapper) (s : str) : M nat :=
  called (CallWrite (name f) s) ;;
  match text_encode (platform host) (encoding f) s with
  | Raise e => raise e
  | Ok data => os_write (name f) data ;; ret (length s)
  end.

Definition close (f : TextIOWrapper) : M unit :=
  called (CallClose (name f)).

(** [with open(p, mode, encoding=enc) as f: body] *)
Definition with_open {A} (p : Path) (mode : OpenMode) (enc : str)
    (body : TextIOWrapper -> M A) : M A :=
  f <- open_ p mode enc ;;
  finally (body f) (close f).

(** [_log.info(msg)] *)
Definition log_info (msg : str) : M unit := fun w =>
  let w' := add_call (CallLogInfo msg) w in
  (Ok tt,
   if info_enabled host then add_log {| levelname := "INFO"; message := msg |} w' else w').

(** [doc.model_dump] with the keyword arguments [kwargs] *)
Definition doc_model_dump (doc : ref) (kwargs : Kwargs) : M JSON := fun w =>
  (model_dump (heap w doc) kwargs, add_call (CallModelDump doc kwargs) w).

(** [toon.encode(value)] *)
Definition toon_encode (codec : ToonModule) (value : JSON) : M str := fun w =>
  (encode codec value, add_call (CallEncode value) w).

Definition dump_kwargs : Kwargs :=
  [("mode", AStr (lit "json")); ("exclude_none", ABool true); ("by_alias", ABool true)]%string.

Definition import_error_message : str :=
  lit "The 'toon' library is required for TOON export. "
  ++ lit "Install it with: pip install toon".

Definition start_message (filename : Path) : str :=
  lit "Exporting document to TOON format: " ++ path_str filename.

Definition done_message (filename : Path) : str :=
  lit "Successfully wrote TOON output to " ++ path_str filename.

(** The calls of an export in which every step returns. *)
Definition full_trace (doc : ref) (filename : Path) (m : JSON) (text : str)
  : list Call :=
  [CallLogInfo (start_message filename);
   CallModelDump doc dump_kwargs;
   CallEncode m;
   CallMkdir (parent filename) true true;
   CallOpen filename mode_w (lit "utf-8");
   CallWrite filename text;
   CallClose filename;
   CallLogInfo (done_message filename)].

(** What [_log.info(msg)] emits. *)
Definition emitted (msg : str) : list LogRecord :=
  if info_enabled host then [{| levelname := "INFO"; message := msg |}] else [].

(** [save_as_toon(doc, filename)], [filename] given as a path. *)
Definition save_as_toon (doc : ref) (filename : Path) : M unit :=
  match toon host with
  | None => raise (ImportError import_error_message)
  | Some codec =>
      log_info (start_message filename) ;;
      doc_dict <- doc_model_dump doc dump_kwargs ;;
      toon_content <- toon_encode codec doc_dict ;;
      let output_path := filename in
      Path_mkdir (parent output_path) true true ;;
      with_open output_path mode_w (lit "utf-8")
        (fun f => write f toon_content) ;;
      log_info (done_message filename)
  end.

(** A step of the export raises [e] and leaves the world [w']: the
    steps before it returned, the step itself raised; a file that is
    open by then is closed on the way out. *)
Inductive fails_at (codec : ToonModule) (doc : ref) (filename : Path) (w : World)
  : Exception -> World -> Prop :=
| fail_model_dump w1 e w' :
    log_info (start_message filename) w = (Ok tt, w1) ->
    doc_model_dump doc dump_kwargs w1 = (Raise e, w') ->
    fails_at codec doc filename w e w'
| fail_encode w1 m w2 e w' :
    log_info (start_message filename) w = (Ok tt, w1) ->
    doc_model_dump doc dump_kwargs w1 = (Ok m, w2) ->
    toon_encode codec m w2 = (Raise e, w') ->
    fails_at codec doc filename w e w'
| fail_mkdir w1 m w2 text w3 e w' :
    log_info (start_message filename) w = (Ok tt, w1) ->
    doc_model_dump doc dump_kwargs w1 = (Ok m, w2) ->
    toon_encode codec m w2 = (Ok text, w3) ->
    Path_mkdir (parent filename) true true w3 = (Raise e, w') ->
    fails_at codec doc filename w e w'
| fail_open w1 m w2 text w3 w4 e w' :
    log_info (start_message filename) w = (Ok tt, w1) ->
    doc_model_dump doc dump_kwargs w1 = (Ok m, w2) ->
    toon_encode codec m w2 = (Ok text, w3) ->
    Path_mkdir (parent filename) true true w3 = (Ok tt, w4) ->
    open_ filename mode_w (lit "utf-8") w4 = (Raise e, w') ->
    fails_at codec doc filename w e w'
| fail_write w1 m w2 text w3 w4 f w5 e w6 w' :
    log_info (start_message filename) w = (Ok tt, w1) ->
    doc_model_dump doc dump_kwargs w1 = (Ok m, w2) ->
    toon_encode codec m w2 = (Ok text, w3) ->
    Path_mkdir (parent filename) true true w3 = (Ok tt, w4) ->
    open_ filename mode_w (lit "utf-8") w4 = (Ok f, w5) ->
    write f text w5 = (Raise e, w6) ->
    close f w6 = (Ok tt, w') ->
    fails_at codec doc filename w e w'.

(** Every step of the export returns. *)
Inductive completes (codec : ToonModule) (doc : ref) (filename : Path) (w : World)
  : World -> Prop :=
| all_steps w1 m w2 text w3 w4 f w5 n w6 w7 w' :
    log_info (start_message filename) w = (Ok tt, w1) ->
    doc_model_dump doc dump_kwargs w1 = (Ok m, w2) ->
    toon_encode codec m w2 = (Ok text, w3) ->
    Path_mkdir (parent filename) true true w3 = (Ok tt, w4) ->
    open_ filename mode_w (lit "utf-8") w4 = (Ok f, w5) ->
    write f text w5 = (Ok n, w6) ->
    close f w6 = (Ok tt, w7) ->
    log_info (done_message filename) w7 = (Ok tt, w') ->
    completes codec doc filename w w'.

Definition syscall_path (sc : Syscall) : Path :=
  match sc with
  | SysMkdir q => q
  | SysOpen q _ => q
  | SysWrite q _ => q
  end.

(** No permission or device error on the way to [p]. *)
Definition permitted (p : Path) : Prop :=
  forall f sc, syscall_path sc `suffix_of` p -> denied host f sc = None.

End SaveAsToon.

(** * A small world for the examples *)

Module Sample.

(** A model in the manner of pydantic: fields with a name, an alias and
    a value that may be absent. *)
Fixpoint kwarg (kwargs : Kwargs) (key : string) : option Arg :=
  match kwargs with
  | [] => None
  | (k, v) :: rest => if String.eqb k key then Some v else kwarg rest key
  end.

Definition flag (kwargs : Kwargs) (key : string) : bool :=
  match kwarg kwargs key with
  | Some (ABool b) => b
  | _ => false
  end.

Definition dump_fields (fields : list (str * str * option JSON))
    (kwargs : Kwargs) : Result JSON :=
  Ok (JDict (flat_map (fun '(field_name, alias, value) =>
    let key := if flag kwargs "by_alias" then alias else field_name in
    match value with
    | Some v => [(key, v)]
    | None => if flag kwargs "exclude_none" then [] else [(key, JNull)]
    end) fields)).

Definition document : DoclingDocument :=
  {| model_dump := dump_fields
       [(lit "schema_name", lit "schema_name", Some (JStr (lit "DoclingDocument")));
        (lit "name", lit "name", Some (JStr (lit "report")));
        (lit "origin", lit "origin", None);
        (lit "cref", lit "$ref", Some (JStr (lit "#/body")))] |}.

(** A second document, with other content. *)
Definition revised_document : DoclingDocument :=
  {| model_dump := dump_fields
       [(lit "name", lit "name", Some (JStr (lit "v2")))] |}.

(** A document with a value the sample codec does not take. *)
Definition nested_document : DoclingDocument :=
  {| model_dump := dump_fields
       [(lit "name", lit "name", Some (JStr (lit "report")));
        (lit "pages", lit "pages", Some (JList [JInt 1; JInt 2]))] |}.

(** A document whose dump raises. *)
Definition broken_document : DoclingDocument :=
  {| model_dump := fun _ =>
       Raise (PyError "PydanticSerializationError" (lit "Unable to serialize")) |}.

(** A codec for flat mappings of strings, booleans and nulls: one
    [key: value] line per entry. *)
Definition encode_scalar (v : JSON) : Result str :=
  match v with
  | JNull => Ok (lit "null")
  | JBool true => Ok (lit "true")
  | JBool false => Ok (lit "false")
  | JStr s => Ok s
  | _ => Raise (PyError "TypeError" (lit "unsupported value"))
  end.

Fixpoint encode_entries (entries : list (str * JSON)) : Result str :=
  match entries with
  | [] => Ok []
  | (k, v) :: rest =>
      match encode_scalar v with
      | Raise e => Raise e
      | Ok s =>
          match encode_entries rest with
          | Raise e => Raise e
          | Ok text => Ok (k ++ lit ": " ++ s ++ [10] ++ text)
          end
      end
  end.

Definition codec : ToonModule :=
  {| encode := fun v =>
       match v with
       | JDict entries => encode_entries entries
       | _ => Raise (PyError "TypeError" (lit "not a mapping"))
       end |}.

Definition host : Host :=
  {| toon := Some codec;
     info_enabled := true;
     platform := Posix;
     denied := fun _ _ => None;
     short_write := fun _ _ _ => 0%nat |}.

Definition host_without_toon : Host :=
  {| toon := None;
     info_enabled := true;
     platform := Posix;
     denied := fun _ _ => None;
     short_write := fun _ _ _ => 0%nat |}.

(** A device that takes three bytes and is full. *)
Definition host_disk_full : Host :=
  {| toon := Some codec;
     info_enabled := false;
     platform := Posix;
     denied := fun _ sc =>
       match sc with
       | SysWrite _ _ => Some ENOSPC
       | _ => None
       end;
     short_write := fun _ _ _ => 3%nat |}.

(** [out/docs/report.toon] *)
Definition dest : Path := [lit "report.toon"; lit "docs"; lit "out"].

Definition objects (r : ref) : DoclingDocument :=
  match r with
  | 0%nat => document
  | 1%nat => revised_document
  | 2%nat => nested_document
  | _ => broken_document
  end.

(** An empty base directory. *)
Definition w0 : World :=
  {| heap := objects; fs := ∅; log := []; calls := [] |}.

(** The directory [out] exists and holds a regular file [docs.txt]. *)
Definition w_out : World :=
  {| heap := objects;
     fs := {[ [lit "out"] := Dir; [lit "docs.txt"; lit "out"] := File (lit "x") ]};
     log := []; calls := [] |}.

(** The world after a first export to [dest]. *)
Definition w1 : World := snd (save_as_toon host 0 dest w0).

(** The world after a second export to [dest]. *)
Definition w2 : World := snd (save_as_toon host 1 dest w1).

End Sample.

(** The number of line feeds of a text. *)
Fixpoint count_lf (s : str) : nat :=
  match s with
  | [] => 0
  | c :: rest => (if c =? 10 then 1 else 0) + count_lf rest
  end.

(** * Properties *)

#[global] Instance Errno_eq_dec : EqDecision Errno.
Proof. solve_decision. Defined.

#[global] Instance Node_eq_dec : EqDecision Node.
Proof. solve_decision. Defined.

(** ** Path resolution *)

#[global] Instance wf_dec f : Decision (wf f).
Proof. unfold wf. apply _. Defined.

Lemma stat_insert_longer (f : gmap Path Node) p n q :
  (length q < length p)%nat -> stat (<[p := n]> f) q = stat f q.
Proof.
  induction q as [|c up IH]; intros Hlen; [done|].
  simpl in *. rewrite IH by lia.
  rewrite lookup_insert_ne; [done|].
  intros ->. simpl in Hlen. lia.
Qed.

Lemma stat_insert_self (f : gmap Path Node) c up n :
  stat f up = inr Dir -> stat (<[c :: up := n]> f) (c :: up) = inr n.
Proof.
  intros Hup. simpl. rewrite stat_insert_longer by (simpl; lia).
  rewrite Hup. by rewrite lookup_insert_eq.
Qed.

Lemma suffix_of_cons (q : Path) c up :
  q `suffix_of` c :: up -> q = c :: up \/ q `suffix_of` up.
Proof.
  intros [k Hk]. destruct k as [|x k]; simpl in Hk.
  - by left.
  - right. exists k. congruence.
Qed.

(** What resolves has only directories above it. *)
Lemma stat_ancestors (f : gmap Path Node) p q n :
  stat f p = inr n -> q `suffix_of` p -> q <> p -> stat f q = inr Dir.
Proof.
  revert n. induction p as [|c up IH]; intros n Hst Hsuf Hne.
  - apply suffix_nil_inv in Hsuf. done.
  - apply suffix_of_cons in Hsuf as [->|Hsuf]; [done|].
    simpl in Hst.
    destruct (stat f up) as [e|[data|]] eqn:Hup; try done.
    destruct (decide (q = up)) as [->|Hq]; [done|].
    by apply (IH Dir).
Qed.

Lemma wf_missing_parent (f : gmap Path Node) c up :
  wf f -> stat f up <> inr Dir -> f !! (c :: up) = None.
Proof.
  intros Hwf Hup. destruct (f !! (c :: up)) as [n|] eqn:Hl; [|done].
  apply Hwf in Hl as [Hl|Hl]; [done|]. simpl in Hl. done.
Qed.

Lemma dirs_added_refl f p : dirs_added f f p.
Proof. intros q. by left. Qed.

Lemma dirs_added_insert (f : gmap Path Node) p :
  f !! p = None -> dirs_added f (<[p := Dir]> f) p.
Proof.
  intros Hp q. destruct (decide (p = q)) as [<-|Hne].
  - right. by rewrite lookup_insert_eq.
  - left. by rewrite lookup_insert_ne.
Qed.

Lemma dirs_added_trans f1 f2 f3 p q :
  p `suffix_of` q -> dirs_added f1 f2 p -> dirs_added f2 f3 q ->
  dirs_added f1 f3 q.
Proof.
  intros Hpq H12 H23 x.
  destruct (H23 x) as [E23|(N2 & D3 & S3)], (H12 x) as [E12|(N1 & D2 & S2)].
  - left. congruence.
  - right. split_and!; [done|congruence|by etrans].
  - right. split_and!; [congruence|done|done].
  - congruence.
Qed.

(** ** Text encoding *)

Lemma utf8_char_nonempty c bs : utf8_char c = Some bs -> bs <> [].
Proof. unfold utf8_char. intros H. repeat case_match; by simplify_eq. Qed.

Lemma utf8_from_nonempty pos s data :
  s <> [] -> utf8_from pos s = Ok data -> data <> [].
Proof.
  destruct s as [|c rest]; [done|]. intros _. simpl.
  destruct (utf8_char c) as [bs|] eqn:Hc; [|done].
  destruct (utf8_from (S pos) rest) as [tl|]; [|done].
  intros [= <-]. apply utf8_char_nonempty in Hc. by destruct bs.
Qed.

Lemma translate_newlines_nonempty pf s :
  s <> [] -> translate_newlines pf s <> [].
Proof.
  destruct s as [|c rest]; [done|]. intros _. unfold translate_newlines. simpl.
  destruct (c =? 10); [by destruct pf|done].
Qed.

Lemma text_encode_utf8 pf s :
  text_encode pf (lit "utf-8") s = utf8_from 0 (translate_newlines pf s).
Proof. unfold text_encode. by case_decide. Qed.

(** ** The system calls and [pathlib] *)

Section Facts.

Variable host : Host.

Lemma os_mkdir_cases p w r w' :
  os_mkdir host p w = (r, w') ->
  (w' = w /\ exists e, r = Raise (OSError e p)) \/
  (r = Ok tt /\ fs w !! p = None /\ w' = set_fs (<[p := Dir]> (fs w)) w).
Proof.
  unfold os_mkdir. intros H.
  repeat case_match; simplify_eq; eauto.
Qed.

Lemma os_mkdir_frame p w r w' :
  os_mkdir host p w = (r, w') ->
  same_but_fs w w' /\ dirs_added (fs w) (fs w') p.
Proof.
  intros [[-> _]|(_ & Hp & ->)]%os_mkdir_cases.
  - split; [done|apply dirs_added_refl].
  - split; [done|by apply dirs_added_insert].
Qed.

Lemma mkdir_exists_frame p exist_ok e w r w' :
  mkdir_exists p exist_ok e w = (r, w') -> w' = w.
Proof. unfold mkdir_exists. intros H. case_match; by simplify_eq. Qed.

Lemma mkdir_single_frame p exist_ok w r w' :
  mkdir_single host p exist_ok w = (r, w') ->
  same_but_fs w w' /\ dirs_added (fs w) (fs w') p.
Proof.
  unfold mkdir_single, try_except. intros H.
  destruct (os_mkdir host p w) as [[[]|e] w1] eqn:Hos.
  - simplify_eq. by eapply os_mkdir_frame.
  - apply os_mkdir_frame in Hos as Hfr.
    assert (w' = w1) as ->; [|done].
    destruct e as [|[] ?| | |]; unfold raise in H; simplify_eq; try done;
      by eapply mkdir_exists_frame.
Qed.

Lemma same_but_fs_trans w1 w2 w3 :
  same_but_fs w1 w2 -> same_but_fs w2 w3 -> same_but_fs w1 w3.
Proof. unfold same_but_fs. intros (?&?&?) (?&?&?). split_and!; congruence. Qed.

Lemma mkdir_frame p parents exist_ok w r w' :
  mkdir host p parents exist_ok w = (r, w') ->
  same_but_fs w w' /\ dirs_added (fs w) (fs w') p.
Proof.
  revert parents exist_ok w r w'.
  induction p as [|c up IH]; intros parents exist_ok w r w' H;
    simpl in H; unfold try_except in H;
    destruct (os_mkdir host _ w) as [[[]|e] w1] eqn:Hos;
    apply os_mkdir_frame in Hos as Hfr.
  - by simplify_eq.
  - assert (w' = w1) as ->; [|done].
    destruct e as [|[] ?| | |]; unfold raise in H; simplify_eq; try done;
      by eapply mkdir_exists_frame.
  - by simplify_eq.
  - destruct Hfr as [Hsame Hdirs].
    assert (forall r0 w0, mkdir_exists (c :: up) exist_ok e w1 = (r0, w0) ->
              same_but_fs w w0 /\ dirs_added (fs w) (fs w0) (c :: up)) as Hex.
    { intros r0 w0 ->%mkdir_exists_frame. done. }
    destruct e as [|[] ?| | |]; unfold raise in H; simplify_eq; eauto.
    destruct parents; simpl in H; [|by simplify_eq].
    unfold bind in H.
    destruct (mkdir host up true true w1) as [[[]|e] w2] eqn:Hup;
      apply IH in Hup as [Hs2 Hd2].
    + apply mkdir_single_frame in H as [Hs3 Hd3]. split.
      * eauto using same_but_fs_trans.
      * eapply dirs_added_trans; [|exact Hdirs|].
        { done. }
        eapply dirs_added_trans; [|exact Hd2|exact Hd3].
        by apply suffix_cons_r.
    + simplify_eq. split; [eauto using same_but_fs_trans|].
      eapply dirs_added_trans; [|exact Hdirs|]; [done|].
      intros q. destruct (Hd2 q) as [?|(?&?&?)]; [by left|right].
      split_and!; [done..|by apply suffix_cons_r].
Qed.

Lemma mkdir_parents_ok p w :
  wf (fs w) ->
  (forall f q, q `suffix_of` p -> denied host f (SysMkdir q) = None) ->
  stat (fs w) p = inr Dir \/ stat (fs w) p = inl ENOENT ->
  exists w', mkdir host p true true w = (Ok tt, w') /\ stat (fs w') p = inr Dir.
Proof.
  intros Hwf. induction p as [|c up IH]; intros Hperm Hst.
  - exists w. split; [|done].
    simpl. unfold try_except, os_mkdir. by rewrite Hperm.
  - assert (forall f q, q `suffix_of` up -> denied host f (SysMkdir q) = None)
      as Hperm' by (intros; apply Hperm; by apply suffix_cons_r).
    specialize (IH Hperm').
    cbn [mkdir]. unfold try_except, os_mkdir. rewrite Hperm by done.
    cbn [stat] in Hst.
    destruct (stat (fs w) up) as [e|[data|]] eqn:Hup.
    + (* a directory above is missing *)
      destruct Hst as [?|He]; [done|]. injection He as ->.
      destruct IH as (w1 & Hmk & Hst1); [by right|].
      cbn [negb]. unfold bind. rewrite Hmk.
      pose proof (mkdir_frame _ _ _ _ _ _ Hmk) as [_ Hdirs].
      assert (fs w1 !! (c :: up) = None) as Hnone.
      { destruct (Hdirs (c :: up)) as [->|(_ & _ & Hsuf)].
        - apply wf_missing_parent; [done|]. by rewrite Hup.
        - by apply suffix_cons_not in Hsuf. }
      unfold mkdir_single, try_except, os_mkdir.
      rewrite Hperm by done. rewrite Hst1, Hnone.
      eexists. split; [done|]. by apply stat_insert_self.
    + destruct Hst; done.
    + destruct (fs w !! (c :: up)) as [n|] eqn:Hl.
      * destruct Hst as [Hn|?]; [|done]. injection Hn as ->.
        exists w. split; [|by cbn [stat]; rewrite Hup, Hl].
        unfold mkdir_exists, is_dir. cbn [stat]. by rewrite Hup, Hl.
      * eexists. split; [done|]. by apply stat_insert_self.
Qed.

Lemma os_open_w_cases p w r w' :
  os_open host p mode_w w = (r, w') ->
  (w' = w /\ exists e, r = Raise (OSError e p)) \/
  (r = Ok tt /\ stat (fs w) (parent p) = inr Dir /\ p <> [] /\
   fs w !! p <> Some Dir /\ w' = set_fs (<[p := File []]> (fs w)) w).
Proof.
  unfold os_open. intros H.
  repeat case_match; simplify_eq; eauto; right; by split_and!.
Qed.

Lemma os_open_w_ok c up w :
  denied host (fs w) (SysOpen (c :: up) mode_w) = None ->
  stat (fs w) up = inr Dir ->
  fs w !! (c :: up) <> Some Dir ->
  os_open host (c :: up) mode_w w
  = (Ok tt, set_fs (<[c :: up := File []]> (fs w)) w).
Proof.
  intros Hperm Hup Hnd. unfold os_open. rewrite Hperm, Hup.
  by repeat case_match.
Qed.

Lemma os_write_cases p data w r w' :
  os_write host p data w = (r, w') ->
  (w' = w /\ r = Raise (OSError EIO p)) \/
  (exists old, fs w !! p = Some (File old) /\
     ((r = Ok tt /\ w' = set_fs (<[p := File (old ++ data)]> (fs w)) w) \/
      (exists e n, r = Raise (OSError e p) /\
         w' = set_fs (<[p := File (old ++ take n data)]> (fs w)) w))).
Proof.
  unfold os_write. intros H.
  repeat case_match; simplify_eq; eauto 10.
Qed.

(** ** The export, step by step *)

Lemma log_info_returns msg w : exists w', log_info host msg w = (Ok tt, w').
Proof. unfold log_info. eauto. Qed.

Lemma close_returns f w : close f w = (Ok tt, add_call (CallClose (name f)) w).
Proof. done. Qed.

(** A run of the export is a run of its steps, in their order, up to
    the first one that raises. *)
Lemma save_as_toon_inv codec doc filename w r w' :
  toon host = Some codec ->
  save_as_toon host doc filename w = (r, w') ->
  (r = Ok tt /\ completes host codec doc filename w w') \/
  (exists e, r = Raise e /\ fails_at host codec doc filename w e w').
Proof.
  intros Htoon. unfold save_as_toon. rewrite Htoon.
  unfold with_open, finally, bind.
  destruct (log_info_returns (start_message filename) w) as [w1 H1]. rewrite H1.
  destruct (doc_model_dump doc dump_kwargs w1) as [[m|e] w2] eqn:H2;
    [|intros [= <- <-]; right; eauto using fail_model_dump].
  destruct (toon_encode codec m w2) as [[text|e] w3] eqn:H3;
    [|intros [= <- <-]; right; eauto using fail_encode].
  destruct (Path_mkdir host (parent filename) true true w3) as [[[]|e] w4] eqn:H4;
    [|intros [= <- <-]; right; eauto using fail_mkdir].
  destruct (open_ host filename mode_w (lit "utf-8") w4) as [[f|e] w5] eqn:H5;
    cbv beta iota;
    [|intros [= <- <-]; right; eauto using fail_open].
  destruct (write host f text w5) as [[n|e] w6] eqn:H6; rewrite close_returns;
    cbv beta iota;
    [|intros [= <- <-]; right; eauto using fail_write, close_returns].
  destruct (log_info_returns (done_message filename)
              (add_call (CallClose (name f)) w6)) as [w7 H7].
  rewrite H7. intros [= <- <-]. left.
  split; [done|]. eauto using all_steps, close_returns.
Qed.

Lemma completes_run codec doc filename w w' :
  toon host = Some codec ->
  completes host codec doc filename w w' ->
  save_as_toon host doc filename w = (Ok tt, w').
Proof.
  intros Htoon [w1 m w2 text w3 w4 f w5 n w6 w7 w'' H1 H2 H3 H4 H5 H6 H7 H8].
  unfold save_as_toon. rewrite Htoon. unfold with_open, finally, bind.
  rewrite H1, H2, H3, H4, H5. cbv beta iota. by rewrite H6, H7, H8.
Qed.

Lemma fails_at_run codec doc filename w e w' :
  toon host = Some codec ->
  fails_at host codec doc filename w e w' ->
  save_as_toon host doc filename w = (Raise e, w').
Proof.
  intros Htoon Hf. unfold save_as_toon. rewrite Htoon.
  unfold with_open, finally, bind.
  destruct Hf as [w1 e w' H1 H2|w1 m w2 e w' H1 H2 H3
                 |w1 m w2 text w3 e w' H1 H2 H3 H4
                 |w1 m w2 text w3 w4 e w' H1 H2 H3 H4 H5
                 |w1 m w2 text w3 w4 f w5 e w6 w' H1 H2 H3 H4 H5 H6 H7].
  - by rewrite H1, H2.
  - by rewrite H1, H2, H3.
  - by rewrite H1, H2, H3, H4.
  - by rewrite H1, H2, H3, H4, H5.
  - rewrite H1, H2, H3, H4, H5. cbv beta iota. by rewrite H6, H7.
Qed.

(** ** What each step does *)

Ltac solve_effect :=
  split_and!; simpl; rewrite ?(right_id_L [] (++)); done.

Lemma step_effect_trans w1 w2 w3 cs1 cs2 rs1 rs2 :
  step_effect w1 w2 cs1 rs1 -> step_effect w2 w3 cs2 rs2 ->
  step_effect w1 w3 (cs1 ++ cs2) (rs1 ++ rs2).
Proof.
  intros (H1 & C1 & L1) (H2 & C2 & L2). split_and!.
  - congruence.
  - rewrite C2, C1. by rewrite <- (assoc_L (++)).
  - rewrite L2, L1. by rewrite <- (assoc_L (++)).
Qed.

Lemma same_but_fs_effect w w' cs rs w'' :
  step_effect w w' cs rs -> same_but_fs w' w'' -> step_effect w w'' cs rs.
Proof. intros (?&?&?) (?&?&?). split_and!; congruence. Qed.

Lemma log_info_effect msg w w1 :
  log_info host msg w = (Ok tt, w1) ->
  step_effect w w1 [CallLogInfo msg] (emitted host msg) /\ fs w1 = fs w.
Proof.
  unfold log_info, emitted. intros [= <-].
  destruct (info_enabled host); split; try done.
  split_and!; simpl; [done..|by rewrite (right_id_L [] (++))].
Qed.

Lemma doc_model_dump_effect doc kw w r w1 :
  doc_model_dump doc kw w = (r, w1) ->
  r = model_dump (heap w doc) kw /\
  step_effect w w1 [CallModelDump doc kw] [] /\ fs w1 = fs w.
Proof.
  unfold doc_model_dump. intros [= <- <-]. split_and!; try done.
  split_and!; simpl; [done..|by rewrite (right_id_L [] (++))].
Qed.

Lemma toon_encode_effect codec m w r w1 :
  toon_encode codec m w = (r, w1) ->
  r = encode codec m /\
  step_effect w w1 [CallEncode m] [] /\ fs w1 = fs w.
Proof.
  unfold toon_encode. intros [= <- <-]. split_and!; try done.
  split_and!; simpl; [done..|by rewrite (right_id_L [] (++))].
Qed.

Lemma called_effect c w :
  step_effect w (add_call c w) [c] [] /\ fs (add_call c w) = fs w.
Proof.
  split; [|done]. split_and!; simpl; [done..|by rewrite (right_id_L [] (++))].
Qed.

Lemma Path_mkdir_effect p parents exist_ok w r w1 :
  Path_mkdir host p parents exist_ok w = (r, w1) ->
  step_effect w w1 [CallMkdir p parents exist_ok] [] /\
  dirs_added (fs w) (fs w1) p.
Proof.
  unfold Path_mkdir, bind, called. intros [Hs Hd]%mkdir_frame. split; [|done].
  eapply same_but_fs_effect; [|exact Hs]. apply called_effect.
Qed.

Lemma open_effect p enc w r w1 :
  open_ host p mode_w enc w = (r, w1) ->
  step_effect w w1 [CallOpen p mode_w enc] [] /\
  ((exists e, r = Raise e /\ fs w1 = fs w) \/
   (r = Ok {| name := p; encoding := enc |} /\
    stat (fs w) (parent p) = inr Dir /\ p <> [] /\
    fs w !! p <> Some Dir /\ fs w1 = <[p := File []]> (fs w))).
Proof.
  unfold open_, bind, called, ret.
  destruct (os_open host p mode_w _) as [[[]|e] w2] eqn:Hos; intros [= <- <-];
    apply os_open_w_cases in Hos as [[-> [e' He]]|(Hr & Hup & Hp & Hnd & ->)];
    simplify_eq; (split; [solve_effect|]); eauto 10.
Qed.

Lemma write_effect f text w r w1 :
  write host f text w = (r, w1) ->
  step_effect w w1 [CallWrite (name f) text] [] /\
  ((exists e, r = Raise e /\ fs w1 = fs w) \/
   (exists old data,
      text_encode (platform host) (encoding f) text = Ok data /\
      fs w !! name f = Some (File old) /\
      ((r = Ok (length text) /\
        fs w1 = <[name f := File (old ++ data)]> (fs w)) \/
       (exists e n, r = Raise e /\
        fs w1 = <[name f := File (old ++ take n data)]> (fs w))))).
Proof.
  unfold write, bind, called, ret, raise.
  destruct (text_encode _ _ _) as [data|e] eqn:Henc.
  - destruct (os_write host (name f) data _) as [[[]|e] w2] eqn:Hos;
      intros [= <- <-];
      apply os_write_cases in Hos
        as [[-> ?]|(old & Hold & [[? ->]|(e' & n & ? & ->)])];
      simplify_eq; (split; [solve_effect|]); eauto 12.
  - intros [= <- <-]. split; [solve_effect|]. eauto.
Qed.

Lemma close_effect f w w1 :
  close f w = (Ok tt, w1) ->
  step_effect w w1 [CallClose (name f)] [] /\ fs w1 = fs w.
Proof. unfold close, called. intros [= <-]. apply called_effect. Qed.

(** ** What a run does *)

Lemma export_frame_dirs (f f1 : gmap Path Node) p :
  dirs_added f f1 (parent p) -> export_frame f f1 p.
Proof. intros Hd q. destruct (Hd q) as [?|?]; eauto. Qed.

Lemma export_frame_file (f f1 : gmap Path Node) p data :
  dirs_added f f1 (parent p) -> f1 !! p <> Some Dir ->
  export_frame f (<[p := File data]> f1) p.
Proof.
  intros Hd Hnd q. destruct (decide (p = q)) as [<-|Hne].
  - right; right. split_and!; [done| |rewrite lookup_insert_eq; eauto].
    destruct (Hd p) as [<-|(-> & _)]; done.
  - rewrite lookup_insert_ne by done. destruct (Hd q) as [?|?]; eauto.
Qed.

Lemma completes_effect codec doc p w w' :
  completes host codec doc p w w' ->
  exists m text data f1,
    model_dump (heap w doc) dump_kwargs = Ok m /\
    encode codec m = Ok text /\
    text_encode (platform host) (lit "utf-8") text = Ok data /\
    step_effect w w' (full_trace doc p m text)
      (emitted host (start_message p) ++ emitted host (done_message p)) /\
    dirs_added (fs w) f1 (parent p) /\
    stat f1 (parent p) = inr Dir /\ p <> [] /\ f1 !! p <> Some Dir /\
    fs w' = <[p := File data]> f1.
Proof.
  intros [w1 m w2 text w3 w4 f w5 n w6 w7 w'' H1 H2 H3 H4 H5 H6 H7 H8].
  apply log_info_effect in H1 as [E1 F1].
  apply doc_model_dump_effect in H2 as (R2 & E2 & F2).
  apply toon_encode_effect in H3 as (R3 & E3 & F3).
  apply Path_mkdir_effect in H4 as [E4 D4].
  apply open_effect in H5 as [E5 [(? & ? & _)|(R5 & Hup & Hp & Hnd & F5)]];
    [done|].
  injection R5 as ->.
  apply write_effect in H6
    as [E6 [(? & ? & _)|(old & data & Henc & Hold & [[_ F6]|(? & ? & ? & _)])]];
    try done.
  apply close_effect in H7 as [E7 F7].
  apply log_info_effect in H8 as [E8 F8].
  simpl in Henc, Hold, F6, E6, E7.
  rewrite F5, lookup_insert_eq in Hold. injection Hold as <-.
  exists m, text, data, (fs w4). split_and!; try done.
  - destruct E1 as [<- _]. done.
  - pose proof (step_effect_trans _ _ _ _ _ _ _ E1
      (step_effect_trans _ _ _ _ _ _ _ E2
      (step_effect_trans _ _ _ _ _ _ _ E3
      (step_effect_trans _ _ _ _ _ _ _ E4
      (step_effect_trans _ _ _ _ _ _ _ E5
      (step_effect_trans _ _ _ _ _ _ _ E6
      (step_effect_trans _ _ _ _ _ _ _ E7 E8))))))) as E.
    exact E.
  - by rewrite <- F1, <- F2, <- F3.
  - rewrite F8, F7, F6, F5. by rewrite insert_insert_eq.
Qed.

Lemma fails_at_effect codec doc p w e w' :
  fails_at host codec doc p w e w' ->
  heap w' = heap w /\
  log w' = log w ++ emitted host (start_message p) /\
  export_frame (fs w) (fs w') p /\
  exists m text n,
    calls w' = calls w ++ take n (full_trace doc p m text) /\
    (2 <= n <= 7)%nat /\
    (3 <= n -> model_dump (heap w doc) dump_kwargs = Ok m)%nat.
Proof.
  intros Hf.
  destruct Hf as [w1 e w' H1 H2|w1 m w2 e w' H1 H2 H3
                 |w1 m w2 text w3 e w' H1 H2 H3 H4
                 |w1 m w2 text w3 w4 e w' H1 H2 H3 H4 H5
                 |w1 m w2 text w3 w4 f w5 e w6 w' H1 H2 H3 H4 H5 H6 H7];
    apply log_info_effect in H1 as [E1 F1];
    apply doc_model_dump_effect in H2 as (R2 & E2 & F2);
    try apply toon_encode_effect in H3 as (R3 & E3 & F3);
    try apply Path_mkdir_effect in H4 as [E4 D4];
    try apply open_effect in H5 as [E5 O5];
    try apply write_effect in H6 as [E6 W6];
    try apply close_effect in H7 as [E7 F7].
  - pose proof (step_effect_trans _ _ _ _ _ _ _ E1 E2) as (Hh & Hc & Hl).
    simpl in Hl; rewrite (right_id_L [] (++)) in Hl. split_and!; [done..| |].
    + rewrite F2, F1. apply export_frame_dirs, dirs_added_refl.
    + exists JNull, [], 2%nat. split_and!; [exact Hc|lia..].
  - pose proof (step_effect_trans _ _ _ _ _ _ _ E1
      (step_effect_trans _ _ _ _ _ _ _ E2 E3)) as (Hh & Hc & Hl).
    simpl in Hl; rewrite (right_id_L [] (++)) in Hl. split_and!; [done..| |].
    + rewrite F3, F2, F1. apply export_frame_dirs, dirs_added_refl.
    + exists m, [], 3%nat. split_and!; [exact Hc|lia..|].
  destruct E1 as [<- _]. done.
  - pose proof (step_effect_trans _ _ _ _ _ _ _ E1
      (step_effect_trans _ _ _ _ _ _ _ E2
      (step_effect_trans _ _ _ _ _ _ _ E3 E4))) as (Hh & Hc & Hl).
    simpl in Hl; rewrite (right_id_L [] (++)) in Hl. split_and!; [done..| |].
    + apply export_frame_dirs. by rewrite <- F1, <- F2, <- F3.
    + exists m, text, 4%nat. split_and!; [exact Hc|lia..|].
  destruct E1 as [<- _]. done.
  - pose proof (step_effect_trans _ _ _ _ _ _ _ E1
      (step_effect_trans _ _ _ _ _ _ _ E2
      (step_effect_trans _ _ _ _ _ _ _ E3
      (step_effect_trans _ _ _ _ _ _ _ E4 E5)))) as (Hh & Hc & Hl).
    simpl in Hl; rewrite (right_id_L [] (++)) in Hl. split_and!; [done..| |].
    + destruct O5 as [(? & _ & ->)|(? & _)]; [|done].
      apply export_frame_dirs. by rewrite <- F1, <- F2, <- F3.
    + exists m, text, 5%nat. split_and!; [exact Hc|lia..|].
  destruct E1 as [<- _]. done.
  - destruct O5 as [(? & ? & _)|(R5 & Hup & Hp & Hnd & F5)]; [done|].
    injection R5 as ->. simpl in E6, E7, W6.
    pose proof (step_effect_trans _ _ _ _ _ _ _ E1
      (step_effect_trans _ _ _ _ _ _ _ E2
      (step_effect_trans _ _ _ _ _ _ _ E3
      (step_effect_trans _ _ _ _ _ _ _ E4
      (step_effect_trans _ _ _ _ _ _ _ E5
      (step_effect_trans _ _ _ _ _ _ _ E6 E7)))))) as (Hh & Hc & Hl).
    simpl in Hl; rewrite (right_id_L [] (++)) in Hl. split_and!; [done..| |].
    + assert (dirs_added (fs w) (fs w4) (parent p)) as Hd
        by (by rewrite <- F1, <- F2, <- F3).
      rewrite F7.
      destruct W6 as [(? & _ & ->)
                     |(old & data & _ & _ & [[? _]|(? & n & _ & ->)])];
        try done; rewrite F5, ?insert_insert_eq; by apply export_frame_file.
    + exists m, text, 7%nat. split_and!; [exact Hc|lia..|].
  destruct E1 as [<- _]. done.
Qed.

(** ** Steps that return *)

Lemma permitted_mkdir p :
  permitted host p ->
  forall f q, q `suffix_of` parent p -> denied host f (SysMkdir q) = None.
Proof.
  intros Hperm f q Hq. apply Hperm. simpl.
  destruct p as [|c up]; [done|]. by apply suffix_cons_r.
Qed.

(** The file the export leaves behind. *)
Lemma completes_file codec doc p w w' :
  completes host codec doc p w w' ->
  exists m text data,
    model_dump (heap w doc) dump_kwargs = Ok m /\
    encode codec m = Ok text /\
    utf8_from 0 (translate_newlines (platform host) text) = Ok data /\
    stat (fs w') p = inr (File data) /\
    stat (fs w') (parent p) = inr Dir.
Proof.
  intros (m & text & data & f1 & Hm & Ht & Hd & _ & _ & Hup & Hp & _ & ->)
    %completes_effect.
  exists m, text, data. rewrite text_encode_utf8 in Hd.
  destruct p as [|c up]; [done|]. simpl in Hup.
  split_and!; [done..|by apply stat_insert_self|].
  cbn [parent tail]. by rewrite stat_insert_longer by (simpl; lia).
Qed.

(** * The claims *)

(** Membership in a list that is written out. *)
Ltac list_in H :=
  repeat match type of H with
         | _ ∈ [] => by apply elem_of_nil in H
         | _ ∈ _ :: _ =>
             apply elem_of_cons in H as [H|H];
             [simplify_eq|]
         end.

(** C1.  When the [toon] package could not be imported the export
    raises [ImportError] and the world is the one it started in: no
    call was made to the document, the codec, the logger or the file
    system, so the tree is untouched and a destination that did not
    exist still does not.  The message names the ['toon'] library and
    the command that installs it. *)
Theorem missing_codec_raises_first doc filename w :
  toon host = None ->
  save_as_toon host doc filename w
  = (Raise (ImportError import_error_message), w) /\
  contains import_error_message (lit "'toon' library is required") = true /\
  contains import_error_message (lit "pip install toon") = true.
Proof.
  intros Htoon. unfold save_as_toon. rewrite Htoon. split; [done|].
  split; vm_compute; reflexivity.
Qed.

(** C2.  An export that returns has checked the codec, dumped the
    document, encoded the mapping, made the parent directories and
    written the text, in this order; the two calls to the logger frame
    them. *)
Theorem export_steps_in_order doc filename w w' :
  save_as_toon host doc filename w = (Ok tt, w') ->
  exists codec m text,
    toon host = Some codec /\
    model_dump (heap w doc) dump_kwargs = Ok m /\
    encode codec m = Ok text /\
    calls w' = calls w ++
      [CallLogInfo (start_message filename);
       CallModelDump doc dump_kwargs;
       CallEncode m;
       CallMkdir (parent filename) true true;
       CallOpen filename mode_w (lit "utf-8");
       CallWrite filename text;
       CallClose filename;
       CallLogInfo (done_message filename)].
Proof.
  intros Hrun. destruct (toon host) as [codec|] eqn:Htoon.
  - destruct (save_as_toon_inv codec _ _ _ _ _ Htoon Hrun)
      as [[_ Hc]|(e & ? & _)]; [|done].
    apply completes_effect in Hc
      as (m & text & data & f1 & Hm & Ht & _ & (_ & Hcalls & _) & _).
    by exists codec, m, text.
  - unfold save_as_toon in Hrun. by rewrite Htoon in Hrun.
Qed.

(** C3.  The document is dumped with [mode="json"],
    [exclude_none=True] and [by_alias=True] and no other argument: every
    [model_dump] call of a run is on the document with these keyword
    arguments, a run that passes the codec check makes it, and what is
    handed to the codec is what it returned. *)
Theorem model_dump_options doc filename w r w' :
  save_as_toon host doc filename w = (r, w') ->
  exists cs,
    calls w' = calls w ++ cs /\
    (forall d kw, CallModelDump d kw ∈ cs ->
       d = doc /\
       kw = [("mode", AStr (lit "json")); ("exclude_none", ABool true);
             ("by_alias", ABool true)]%string) /\
    (is_Some (toon host) -> CallModelDump doc dump_kwargs ∈ cs) /\
    (forall v, CallEncode v ∈ cs ->
       model_dump (heap w doc) dump_kwargs = Ok v).
Proof.
  intros Hrun. destruct (toon host) as [codec|] eqn:Htoon.
  - destruct (save_as_toon_inv codec _ _ _ _ _ Htoon Hrun)
      as [[_ Hc]|(e & _ & Hf)].
    + apply completes_effect in Hc
        as (m & text & data & f1 & Hm & _ & _ & (_ & Hcalls & _) & _).
      exists (full_trace doc filename m text). split; [done|].
      unfold full_trace. split_and!.
      * intros d kw Hin. list_in Hin. by split.
      * intros _. rewrite !elem_of_cons. auto.
      * intros v Hin. by list_in Hin.
    + apply fails_at_effect in Hf
        as (_ & _ & _ & m & text & n & Hcalls & [Hlo Hhi] & Hm).
      exists (take n (full_trace doc filename m text)). split; [done|].
      assert (n = 2 \/ n = 3 \/ n = 4 \/ n = 5 \/ n = 6 \/ n = 7)%nat
        as Hn by lia.
      destruct_or!; subst n; cbn [take full_trace];
        (split_and!;
         [intros d kw Hin; list_in Hin; by split
         |intros _; rewrite !elem_of_cons; auto
         |intros v Hin; list_in Hin; apply Hm; lia]).
  - unfold save_as_toon, raise in Hrun. rewrite Htoon in Hrun.
    injection Hrun as <- <-. exists []. rewrite (right_id_L [] (++)).
    split_and!; [done|by intros ?? ?%elem_of_nil|by intros [??]
                |by intros ? ?%elem_of_nil].
Qed.

(** C8.  The export has no handler of its own: it raises [e] and
    leaves [w'] exactly when one of its steps raised [e] after the steps
    before it returned, and [w'] is the world that step left (with the
    file closed if it was open).  No step runs after the failing one
    and none runs twice. *)
Theorem failures_propagate codec doc filename w e w' :
  toon host = Some codec ->
  fails_at host codec doc filename w e w' <->
  save_as_toon host doc filename w = (Raise e, w').
Proof.
  intros Htoon. split.
  - by apply fails_at_run.
  - intros Hrun.
    destruct (save_as_toon_inv codec _ _ _ _ _ Htoon Hrun)
      as [[? _]|(e' & [= <-] & Hf)]; done.
Qed.

(** C10.  When [model_dump] or [encode] raises, the export raises the
    same exception, the tree is the one it started with, and no call
    reached the file system. *)
Theorem conversion_failure_keeps_fs codec doc filename w e :
  toon host = Some codec ->
  model_dump (heap w doc) dump_kwargs = Raise e \/
  (exists m, model_dump (heap w doc) dump_kwargs = Ok m /\
             encode codec m = Raise e) ->
  exists w' cs,
    save_as_toon host doc filename w = (Raise e, w') /\
    fs w' = fs w /\
    calls w' = calls w ++ cs /\
    forallb (fun c => negb (is_fs_call c)) cs = true.
Proof.
  intros Htoon Hraise.
  unfold save_as_toon. rewrite Htoon.
  unfold bind, log_info, doc_model_dump, toon_encode.
  assert (forall w0, heap (if info_enabled host then
                      add_log {| levelname := "INFO";
                                 message := start_message filename |} w0
                    else w0) = heap w0) as Hheap by (intros; by case_match).
  cbv zeta. rewrite Hheap. cbn [heap add_call].
  destruct Hraise as [Hd|(m & Hd & He)]; rewrite Hd; [|rewrite He];
    eexists _, _; (split; [done|]);
    destruct (info_enabled host); cbn;
    (split; [done|]); rewrite <- ?(assoc_L (++)); (split; [done|]); done.
Qed.

(** C4.  The file is opened with mode ["w"] and [encoding="utf-8"],
    and after two exports to one path the file holds the UTF-8 bytes of
    the second text and nothing of the first. *)
Theorem second_export_overwrites doc1 doc2 filename w0 w1 w2 :
  save_as_toon host doc1 filename w0 = (Ok tt, w1) ->
  save_as_toon host doc2 filename w1 = (Ok tt, w2) ->
  exists codec data1 m2 text2 data2,
    toon host = Some codec /\
    stat (fs w1) filename = inr (File data1) /\
    model_dump (heap w1 doc2) dump_kwargs = Ok m2 /\
    encode codec m2 = Ok text2 /\
    utf8_from 0 (translate_newlines (platform host) text2) = Ok data2 /\
    stat (fs w2) filename = inr (File data2) /\
    CallOpen filename mode_w (lit "utf-8") ∈ calls w2.
Proof.
  intros Hrun1 Hrun2. destruct (toon host) as [codec|] eqn:Htoon.
  - destruct (save_as_toon_inv codec _ _ _ _ _ Htoon Hrun1)
      as [[_ Hc1]|(e & ? & _)]; [|done].
    destruct (save_as_toon_inv codec _ _ _ _ _ Htoon Hrun2)
      as [[_ Hc2]|(e & ? & _)]; [|done].
    apply completes_file in Hc1 as (_ & _ & data1 & _ & _ & _ & Hf1 & _).
    pose proof (completes_file _ _ _ _ _ Hc2)
      as (m2 & text2 & data2 & Hm & Ht & Hd & Hf2 & _).
    apply completes_effect in Hc2
      as (m & text & _ & _ & _ & _ & _ & (_ & Hcalls & _) & _).
    exists codec, data1, m2, text2, data2. split_and!; try done.
    rewrite Hcalls, elem_of_app. right. unfold full_trace.
    rewrite !elem_of_cons. auto 10.
  - unfold save_as_toon in Hrun1. by rewrite Htoon in Hrun1.
Qed.

(** C5.  Where nothing but missing directories stands between the
    base directory and the destination (no regular file on the way, the
    destination not a directory, no permission or device error), the
    export returns; afterwards every directory above the destination
    exists, whether it was there before or not, and the file is in
    place.  The directories are made before the file is opened. *)
Theorem export_creates_parents codec doc filename w m text data :
  toon host = Some codec ->
  model_dump (heap w doc) dump_kwargs = Ok m ->
  encode codec m = Ok text ->
  utf8_from 0 (translate_newlines (platform host) text) = Ok data ->
  wf (fs w) ->
  permitted host filename ->
  is_dir (fs w) filename = false ->
  stat (fs w) (parent filename) = inr Dir \/
  stat (fs w) (parent filename) = inl ENOENT ->
  exists w',
    save_as_toon host doc filename w = (Ok tt, w') /\
    (forall q, q `suffix_of` parent filename -> is_dir (fs w') q = true) /\
    stat (fs w') filename = inr (File data) /\
    calls w' = calls w ++ full_trace doc filename m text.
Proof.
  intros Htoon Hm Ht Hd Hwf Hperm Hnd Hup.
  destruct (save_as_toon host doc filename w) as [r w'] eqn:Hrun.
  exists w'.
  destruct (save_as_toon_inv codec _ _ _ _ _ Htoon Hrun)
    as [[-> Hc]|(e & -> & Hf)].
  - pose proof (completes_file _ _ _ _ _ Hc)
      as (m' & text' & data' & Hm' & Ht' & Hd' & Hfile & Hpar).
    apply completes_effect in Hc
      as (m'' & text'' & _ & _ & Hm'' & Ht'' & _ & (_ & Hcalls & _) & _).
    assert (m' = m) as -> by congruence.
    assert (m'' = m) as -> by congruence.
    assert (text' = text) as -> by congruence.
    assert (text'' = text) as -> by congruence.
    assert (data' = data) as -> by congruence.
    split_and!; try done.
    intros q Hq. unfold is_dir.
    destruct (decide (q = parent filename)) as [->|Hne]; [by rewrite Hpar|].
    by rewrite (stat_ancestors _ _ _ _ Hpar Hq Hne).
  - exfalso.
    destruct Hf as [w1 e w'' H1 H2|w1 m0 w2 e w'' H1 H2 H3
                   |w1 m0 w2 text0 w3 e w'' H1 H2 H3 H4
                   |w1 m0 w2 text0 w3 w4 e w'' H1 H2 H3 H4 H5
                   |w1 m0 w2 text0 w3 w4 f w5 e w6 w'' H1 H2 H3 H4 H5 H6 H7];
      apply log_info_effect in H1 as [[Hh1 _] F1];
      apply doc_model_dump_effect in H2 as (R2 & _ & F2);
      rewrite Hh1, Hm in R2; try done; injection R2 as <-;
      apply toon_encode_effect in H3 as (R3 & _ & F3);
      rewrite Ht in R3; try done; injection R3 as <-.
    all: assert (fs w3 = fs w) as F by congruence.
    all: unfold Path_mkdir, bind, called in H4.
    all: destruct (mkdir_parents_ok (parent filename)
                     (add_call (CallMkdir (parent filename) true true) w3))
           as (w4' & Hmk & Hst4);
           [by simpl; rewrite F|by apply permitted_mkdir|by simpl; rewrite F|].
    all: rewrite Hmk in H4; try done; injection H4 as <-.
    all: pose proof (mkdir_frame _ _ _ _ _ _ Hmk) as [_ Hdirs];
         simpl in Hdirs; rewrite F in Hdirs.
    all: destruct filename as [|c up]; [done|]; cbn [parent tail] in *.
    all: assert (fs w4' !! (c :: up) <> Some Dir) as Hnd4.
    1, 3: destruct (Hdirs (c :: up)) as [->|(_ & _ & Hsuf)];
          [|by apply suffix_cons_not in Hsuf];
          intros Hl; pose proof (Hwf _ _ Hl) as [?|Hpar]; [done|];
          unfold is_dir in Hnd; simpl in Hnd, Hpar; by rewrite Hpar, Hl in Hnd.
    all: unfold open_, bind, called, ret in H5;
         rewrite os_open_w_ok in H5; [|by apply Hperm|done..]; try done.
    injection H5 as <- <-.
    unfold write, bind, called, ret in H6. cbn [name encoding] in H6.
    rewrite text_encode_utf8, Hd in H6.
    unfold os_write in H6. cbn [fs set_fs add_call] in H6.
    rewrite lookup_insert_eq, Hperm in H6; done.
Qed.

(** C6.  For a codec that gives non-empty text for a mapping with at
    least one key: when the document has a field, an export that
    returns (its result is the unit value, Python's [None]) leaves a
    regular file at the destination whose size is positive. *)
Theorem export_file_not_empty codec doc filename w m w' :
  toon host = Some codec ->
  codec_nonempty codec ->
  model_dump (heap w doc) dump_kwargs = Ok m ->
  has_field m = true ->
  save_as_toon host doc filename w = (Ok tt, w') ->
  exists_ (fs w') filename = true /\
  exists n, st_size (fs w') filename = Some n /\ (0 < n)%nat.
Proof.
  intros Htoon Hcodec Hm Hfield Hrun.
  destruct (save_as_toon_inv codec _ _ _ _ _ Htoon Hrun)
    as [[_ Hc]|(e & ? & _)]; [|done].
  apply completes_file in Hc as (m' & text & data & Hm' & Ht & Hd & Hfile & _).
  assert (m' = m) as -> by congruence. unfold exists_, st_size. rewrite Hfile. split; [done|].
  exists (length data). split; [done|].
  assert (data <> []) as Hne.
  { eapply utf8_from_nonempty; [|exact Hd].
    apply translate_newlines_nonempty. by eapply Hcodec. }
  destruct data; [done|simpl; lia].
Qed.

(** C9 (amended).  Whatever the outcome, an export leaves the
    document objects as they were; in the tree it only adds directories
    on the way to the destination and puts a regular file at the
    destination; it makes no call but those of [full_trace], on this
    document and this path; and it emits at most the two INFO records
    of the module logger, none when the logger is not enabled for INFO
    or the codec is missing. *)
Theorem export_effects doc filename w r w' :
  save_as_toon host doc filename w = (r, w') ->
  heap w' = heap w /\
  export_frame (fs w) (fs w') filename /\
  (exists m text n,
     calls w' = calls w ++ take n (full_trace doc filename m text)) /\
  (exists k,
     log w' = log w ++
       take k (emitted host (start_message filename)
               ++ emitted host (done_message filename))) /\
  (info_enabled host = false \/ toon host = None -> log w' = log w).
Proof.
  intros Hrun. destruct (toon host) as [codec|] eqn:Htoon.
  - destruct (save_as_toon_inv codec _ _ _ _ _ Htoon Hrun)
      as [[_ Hc]|(e & _ & Hf)].
    + apply completes_effect in Hc
        as (m & text & data & f1 & _ & _ & _ & (Hh & Hcalls & Hlog)
            & Hdirs & _ & _ & Hnd & ->).
      split_and!; [done|apply export_frame_file; assumption| | |].
      * by exists m, text, 8%nat.
      * exists 2%nat. rewrite Hlog. unfold emitted.
        by destruct (info_enabled host).
      * intros [Hoff|?]; [|done]. rewrite Hlog. unfold emitted.
        rewrite Hoff. simpl. by rewrite (right_id_L [] (++)).
    + apply fails_at_effect in Hf
        as (Hh & Hlog & Hframe & m & text & n & Hcalls & _).
      split_and!; [done|done| | |].
      * by exists m, text, n.
      * exists 1%nat. rewrite Hlog. unfold emitted.
        by destruct (info_enabled host).
      * intros [Hoff|?]; [|done]. rewrite Hlog. unfold emitted.
        rewrite Hoff. by rewrite (right_id_L [] (++)).
  - unfold save_as_toon, raise in Hrun. rewrite Htoon in Hrun.
    injection Hrun as <- <-. split_and!; [done| | | |done].
    + intros q. by left.
    + exists JNull, [], 0%nat. simpl. by rewrite (right_id_L [] (++)).
    + exists 0%nat. rewrite take_0. by rewrite (right_id_L [] (++)).
Qed.

End Facts.

(** * Further properties of the export *)

(** ** More on path resolution *)

Lemma stat_errno (f : gmap Path Node) p e :
  stat f p = inl e -> e = ENOENT \/ e = ENOTDIR.
Proof.
  induction p as [|c up IH]; [done|]. simpl.
  destruct (stat f up) as [e'|[d|]]; [|intros [= <-]; auto|].
  - intros [= <-]. auto.
  - destruct (f !! (c :: up)); [done|]. intros [= <-]. auto.
Qed.

(** A directory that resolves still resolves when an entry that was
    not a directory is put in or replaced. *)
Lemma stat_dir_insert (f : gmap Path Node) p n x :
  f !! p <> Some Dir -> stat f x = inr Dir -> stat (<[p := n]> f) x = inr Dir.
Proof.
  intros Hp. induction x as [|c up IH]; [done|]. simpl.
  destruct (stat f up) as [e|[d|]] eqn:Hup; try done.
  rewrite IH by done.
  destruct (f !! (c :: up)) as [m|] eqn:Hl; [|done]. intros [= ->].
  rewrite lookup_insert_ne; [by rewrite Hl|]. intros ->. by rewrite Hl in Hp.
Qed.

Lemma wf_insert (f : gmap Path Node) p n :
  wf f -> p <> [] -> stat f (parent p) = inr Dir -> f !! p <> Some Dir ->
  wf (<[p := n]> f).
Proof.
  intros Hwf Hne Hup Hp q m Hq. destruct (decide (p = q)) as [<-|Hpq].
  - right. destruct p as [|c up]; [done|]. simpl in *.
    by rewrite stat_insert_longer by (simpl; lia).
  - rewrite lookup_insert_ne in Hq by done.
    destruct (Hwf q m Hq) as [?|Hq']; [by left|right].
    by apply stat_dir_insert.
Qed.

(** Membership in a list that is written out, case by case. *)
Ltac list_cases H :=
  repeat match type of H with
         | _ ∈ [] => by apply elem_of_nil in H
         | _ ∈ _ :: _ => apply elem_of_cons in H as [H|H]; [simplify_eq|]
         end.

Section More.

Variable host : Host.

(** ** More on [os.mkdir] and [Path.mkdir] *)

Lemma os_mkdir_ok p w w' :
  os_mkdir host p w = (Ok tt, w') ->
  p <> [] /\ stat (fs w) (parent p) = inr Dir /\ fs w !! p = None /\
  w' = set_fs (<[p := Dir]> (fs w)) w.
Proof.
  unfold os_mkdir. intros H. repeat case_match; simplify_eq. by split_and!.
Qed.

Lemma os_mkdir_existing p w r w' :
  stat (fs w) p = inr Dir -> os_mkdir host p w = (r, w') ->
  w' = w /\ exists e, r = Raise (OSError e p).
Proof.
  intros Hst H. destruct r as [[]|e].
  - apply os_mkdir_ok in H as (Hne & Hup & Hnone & _).
    destruct p as [|c up]; [done|]. simpl in Hst, Hup.
    by rewrite Hup, Hnone in Hst.
  - apply os_mkdir_cases in H as [[-> [e' ->]]|[? _]]; [eauto|done].
Qed.

(** On a directory that exists [mkdir] changes nothing, whatever it
    returns. *)
Lemma mkdir_existing p parents exist_ok w r w' :
  stat (fs w) p = inr Dir -> mkdir host p parents exist_ok w = (r, w') -> w' = w.
Proof.
  revert parents exist_ok r w'.
  induction p as [|c up IH]; intros parents exist_ok r w' Hst H;
    simpl in H; unfold try_except in H;
    destruct (os_mkdir host _ w) as [r1 w1] eqn:Hos;
    apply (os_mkdir_existing _ _ _ _ Hst) in Hos as [-> [e ->]].
  - destruct e; unfold raise in H; simplify_eq; try done;
      by eapply mkdir_exists_frame.
  - assert (stat (fs w) up = inr Dir) as Hup.
    { simpl in Hst. by destruct (stat (fs w) up) as [?|[?|]]. }
    destruct e; unfold raise in H; try (by eapply mkdir_exists_frame).
    destruct parents; simpl in H; [|by simplify_eq].
    unfold bind in H.
    destruct (mkdir host up true true w) as [[[]|e] w2] eqn:Hmk;
      apply (IH _ _ _ _ Hup) in Hmk as ->; [|by simplify_eq].
    unfold mkdir_single, try_except in H.
    destruct (os_mkdir host _ w) as [r1 w1] eqn:Hos.
    apply (os_mkdir_existing _ _ _ _ Hst) in Hos as [-> [e ->]].
    destruct e; unfold raise in H; simplify_eq; try done;
      by eapply mkdir_exists_frame.
Qed.

Lemma mkdir_exists_ok p exist_ok e w w' :
  mkdir_exists p exist_ok e w = (Ok tt, w') -> w' = w /\ is_dir (fs w) p = true.
Proof.
  unfold mkdir_exists. intros H.
  destruct exist_ok, (is_dir (fs w) p); simpl in H; by simplify_eq.
Qed.

Lemma os_mkdir_ok_is_dir p w w' :
  os_mkdir host p w = (Ok tt, w') -> is_dir (fs w') p = true.
Proof.
  intros (Hne & Hup & _ & ->)%os_mkdir_ok.
  destruct p as [|c up]; [done|]. unfold is_dir. simpl in Hup.
  cbn [fs set_fs]. by rewrite stat_insert_self.
Qed.

Lemma mkdir_single_ok_is_dir p exist_ok w w' :
  mkdir_single host p exist_ok w = (Ok tt, w') -> is_dir (fs w') p = true.
Proof.
  unfold mkdir_single, try_except.
  destruct (os_mkdir host p w) as [[[]|e] w1] eqn:Hos.
  - intros [= <-]. by eapply os_mkdir_ok_is_dir.
  - destruct e as [|[] ?| | |]; unfold raise; try done;
      by intros [-> ?]%mkdir_exists_ok.
Qed.

(** When [mkdir] returns, the directory is there. *)
Lemma mkdir_ok_is_dir p parents exist_ok w w' :
  mkdir host p parents exist_ok w = (Ok tt, w') -> is_dir (fs w') p = true.
Proof.
  destruct p as [|c up]; simpl; unfold try_except;
    destruct (os_mkdir host _ w) as [[[]|e] w1] eqn:Hos.
  - intros [= <-]. by eapply os_mkdir_ok_is_dir.
  - destruct e as [|[] ?| | |]; unfold raise; try done;
      by intros [-> ?]%mkdir_exists_ok.
  - intros [= <-]. by eapply os_mkdir_ok_is_dir.
  - destruct e as [|[] ?| | |]; unfold raise; try done;
      try (by intros [-> ?]%mkdir_exists_ok).
    destruct parents; simpl; [|done]. unfold bind.
    destruct (mkdir host up true true w1) as [[[]|e] w2]; [|done].
    apply mkdir_single_ok_is_dir.
Qed.

Lemma os_mkdir_blocked p w :
  (exists d, stat (fs w) p = inr (File d)) \/ stat (fs w) p = inl ENOTDIR ->
  forall r w', os_mkdir host p w = (r, w') ->
  w' = w /\ exists e, r = Raise (OSError e p).
Proof.
  intros Hst r w' H. destruct r as [[]|e].
  - apply os_mkdir_ok in H as (Hne & Hup & Hnone & _).
    destruct p as [|c up]; [done|]. simpl in Hst, Hup.
    rewrite Hup, Hnone in Hst. by destruct Hst as [[d ?]|?].
  - apply os_mkdir_cases in H as [[-> [e' ->]]|[? _]]; [eauto|done].
Qed.

Lemma mkdir_exists_blocked p exist_ok e w :
  is_dir (fs w) p = false ->
  forall r w', mkdir_exists p exist_ok e w = (r, w') ->
  w' = w /\ exists e', r = Raise e'.
Proof.
  intros Hnd r w'. unfold mkdir_exists. rewrite Hnd, orb_true_r.
  intros [= <- <-]. eauto.
Qed.

(** A regular file at the path or above it makes [mkdir] raise, and
    nothing is made. *)
Lemma mkdir_blocked p parents exist_ok w r w' :
  (exists d, stat (fs w) p = inr (File d)) \/ stat (fs w) p = inl ENOTDIR ->
  mkdir host p parents exist_ok w = (r, w') ->
  w' = w /\ exists e, r = Raise e.
Proof.
  revert parents exist_ok r w'.
  induction p as [|c up IH]; intros parents exist_ok r w' Hst H.
  { destruct Hst as [[d ?]|?]; done. }
  assert (is_dir (fs w) (c :: up) = false) as Hnd.
  { unfold is_dir. by destruct Hst as [[d ->]| ->]. }
  pose proof (fun e => mkdir_exists_blocked (c :: up) exist_ok e w Hnd) as Hex.
  simpl in H. unfold try_except in H.
  destruct (os_mkdir host _ w) as [r1 w1] eqn:H1.
  apply (os_mkdir_blocked _ _ Hst) in H1 as [-> [e ->]].
  destruct e; unfold raise in H; try (by eapply Hex).
  destruct parents; simpl in H; [|simplify_eq; eauto].
  unfold bind in H.
  destruct (mkdir host up true true w) as [[[]|e] w2] eqn:Hmk.
  - (* [mkdir] of the directories above returned: they resolve, so the
       regular file is at the path itself *)
    simpl in Hst.
    destruct (stat (fs w) up) as [e'|[d|]] eqn:Hup.
    + destruct Hst as [[d ?]|[= ->]]; [done|].
      destruct (IH true true (Ok tt) w2) as [_ [e0 ?]]; [by right|done|done].
    + destruct (IH true true (Ok tt) w2) as [_ [e0 ?]]; [eauto|done|done].
    + apply (mkdir_existing up) in Hmk as ->; [|done].
      assert ((exists d, stat (fs w) (c :: up) = inr (File d)) \/
              stat (fs w) (c :: up) = inl ENOTDIR) as Hst'
        by (simpl; by rewrite Hup).
      unfold mkdir_single, try_except in H.
      destruct (os_mkdir host _ w) as [r3 w3] eqn:H3.
      apply (os_mkdir_blocked _ _ Hst') in H3 as [-> [e0 ->]].
      destruct e0; unfold raise in H; try (by eapply Hex).
      simplify_eq. eauto.
  - simplify_eq. simpl in Hst.
    destruct (stat (fs w) up) as [e'|[d|]] eqn:Hup.
    + destruct Hst as [[d ?]|[= ->]]; [done|].
      destruct (IH true true (Raise e) w') as [-> _]; [by right|done|eauto].
    + destruct (IH true true (Raise e) w') as [-> _]; eauto.
    + apply (mkdir_existing up) in Hmk as ->; eauto.
Qed.

(** ** The tree stays well formed *)

Lemma os_mkdir_wf p w r w' :
  wf (fs w) -> os_mkdir host p w = (r, w') -> wf (fs w').
Proof.
  intros Hwf H. destruct r as [[]|e].
  - apply os_mkdir_ok in H as (Hne & Hup & Hnone & ->).
    apply wf_insert; try done. by rewrite Hnone.
  - by apply os_mkdir_cases in H as [[-> _]|[? _]].
Qed.

Lemma mkdir_single_wf p exist_ok w r w' :
  wf (fs w) -> mkdir_single host p exist_ok w = (r, w') -> wf (fs w').
Proof.
  intros Hwf. unfold mkdir_single, try_except.
  destruct (os_mkdir host p w) as [[[]|e] w1] eqn:Hos;
    apply os_mkdir_wf in Hos; try done.
  - by intros [= <- <-].
  - destruct e as [|[] ?| | |]; unfold raise; try (by intros [= <- <-]);
      by intros ->%mkdir_exists_frame.
Qed.

Lemma mkdir_wf p parents exist_ok w r w' :
  wf (fs w) -> mkdir host p parents exist_ok w = (r, w') -> wf (fs w').
Proof.
  revert parents exist_ok w r w'.
  induction p as [|c up IH]; intros parents exist_ok w r w' Hwf;
    simpl; unfold try_except;
    destruct (os_mkdir host _ w) as [[[]|e] w1] eqn:Hos;
    apply os_mkdir_wf in Hos; try done;
    try (by intros [= <- <-]).
  - destruct e as [|[] ?| | |]; unfold raise; try (by intros [= <- <-]);
      by intros ->%mkdir_exists_frame.
  - destruct e as [|[] ?| | |]; unfold raise; try (by intros [= <- <-]);
      try (by intros ->%mkdir_exists_frame).
    destruct parents; simpl; [|by intros [= <- <-]]. unfold bind.
    destruct (mkdir host up true true w1) as [[[]|e] w2] eqn:Hmk;
      apply IH in Hmk; try done; [|by intros [= <- <-]].
    by apply mkdir_single_wf.
Qed.

(** ** The shape of a run *)

Lemma write_encode_error f text w e w' :
  write host f text w = (Raise e, w') ->
  forall e0, text_encode (platform host) (encoding f) text = Raise e0 -> e = e0.
Proof.
  unfold write, bind, called, raise. intros H e0 He0. rewrite He0 in H.
  by injection H.
Qed.

(** Where a run can stop, and what the tree and the calls are there:
    before [mkdir]; in [mkdir]; at [open]; or past [open], with a regular
    file at the destination. *)
Lemma export_shape codec doc p w r w' :
  toon host = Some codec ->
  save_as_toon host doc p w = (r, w') ->
  exists cs, calls w' = calls w ++ cs /\
    ((fs w' = fs w /\ (exists e, r = Raise e) /\
      forallb (fun c => negb (is_fs_call c)) cs = true) \/
     exists wa rm wm,
       fs wa = fs w /\
       mkdir host (parent p) true true wa = (rm, wm) /\
       ((fs w' = fs wm /\ (exists e, r = Raise e) /\
         (forall t, CallWrite p t ∉ cs) /\
         (CallOpen p mode_w (lit "utf-8") ∈ cs -> rm = Ok tt)) \/
        (rm = Ok tt /\ p <> [] /\
         stat (fs wm) (parent p) = inr Dir /\ fs wm !! p <> Some Dir /\
         exists text d,
           (forall t, CallWrite p t ∈ cs -> t = text) /\
           fs w' = <[p := File d]> (fs wm) /\
           (r = Ok tt ->
            text_encode (platform host) (lit "utf-8") text = Ok d) /\
           (forall data,
              text_encode (platform host) (lit "utf-8") text = Ok data ->
              d `prefix_of` data) /\
           (forall e,
              text_encode (platform host) (lit "utf-8") text = Raise e ->
              d = [] /\ r = Raise e)))).
Proof.
  intros Htoon Hrun.
  destruct (save_as_toon_inv host codec _ _ _ _ _ Htoon Hrun)
    as [[-> Hc]|(e & -> & Hf)].
  - destruct Hc as [w1 m w2 text w3 w4 f w5 n w6 w7 w' H1 H2 H3 H4 H5 H6 H7 H8].
    apply log_info_effect in H1 as [E1 F1].
    apply doc_model_dump_effect in H2 as (R2 & E2 & F2).
    apply toon_encode_effect in H3 as (R3 & E3 & F3).
    pose proof (Path_mkdir_effect _ _ _ _ _ _ _ H4) as [E4 _].
    unfold Path_mkdir, bind, called in H4.
    apply open_effect in H5 as [E5 [(? & ? & _)|(R5 & Hup & Hp & Hnd & F5)]];
      [done|].
    injection R5 as ->.
    apply write_effect in H6
      as [E6 [(? & ? & _)|(old & data & Henc & Hold & [[_ F6]|(? & ? & ? & _)])]];
      try done.
    apply close_effect in H7 as [E7 F7].
    apply log_info_effect in H8 as [E8 F8].
    simpl in Henc, Hold, F6, E6, E7.
    rewrite F5, lookup_insert_eq in Hold. injection Hold as <-.
    pose proof (step_effect_trans _ _ _ _ _ _ _ E1
      (step_effect_trans _ _ _ _ _ _ _ E2
      (step_effect_trans _ _ _ _ _ _ _ E3
      (step_effect_trans _ _ _ _ _ _ _ E4
      (step_effect_trans _ _ _ _ _ _ _ E5
      (step_effect_trans _ _ _ _ _ _ _ E6
      (step_effect_trans _ _ _ _ _ _ _ E7 E8))))))) as (_ & Hcalls & _).
    eexists. split; [exact Hcalls|]. right.
    eexists _, _, _. split; [|split; [exact H4|]].
    { simpl. congruence. }
    right. split_and!; try done.
    exists text, data. split_and!.
    + intros t Hin. simpl in Hin. by list_cases Hin.
    + rewrite F8, F7, F6, F5. by rewrite insert_insert_eq.
    + done.
    + intros data' Hd'. assert (data' = data) as -> by congruence.
      reflexivity.
    + intros e He. by rewrite He in Henc.
  - destruct Hf as [w1 e w' H1 H2|w1 m w2 e w' H1 H2 H3
                   |w1 m w2 text w3 e w' H1 H2 H3 H4
                   |w1 m w2 text w3 w4 e w' H1 H2 H3 H4 H5
                   |w1 m w2 text w3 w4 f w5 e w6 w' H1 H2 H3 H4 H5 H6 H7];
      apply log_info_effect in H1 as [E1 F1];
      apply doc_model_dump_effect in H2 as (R2 & E2 & F2);
      try apply toon_encode_effect in H3 as (R3 & E3 & F3);
      try (pose proof (Path_mkdir_effect _ _ _ _ _ _ _ H4) as [E4 _];
           unfold Path_mkdir, bind, called in H4);
      try apply open_effect in H5 as [E5 O5];
      try (pose proof (write_encode_error _ _ _ _ _ H6) as Hraise;
           apply write_effect in H6 as [E6 W6]);
      try apply close_effect in H7 as [E7 F7].
    + pose proof (step_effect_trans _ _ _ _ _ _ _ E1 E2) as (_ & Hcalls & _).
      eexists. split; [exact Hcalls|]. left.
      split_and!; [congruence|eauto|done].
    + pose proof (step_effect_trans _ _ _ _ _ _ _ E1
        (step_effect_trans _ _ _ _ _ _ _ E2 E3)) as (_ & Hcalls & _).
      eexists. split; [exact Hcalls|]. left.
      split_and!; [congruence|eauto|done].
    + pose proof (step_effect_trans _ _ _ _ _ _ _ E1
        (step_effect_trans _ _ _ _ _ _ _ E2
        (step_effect_trans _ _ _ _ _ _ _ E3 E4))) as (_ & Hcalls & _).
      eexists. split; [exact Hcalls|]. right.
      eexists _, _, _. split; [|split; [exact H4|]].
      { simpl. congruence. }
      left. split_and!; [done|eauto| |].
      * intros t Hin. simpl in Hin. by list_cases Hin.
      * intros Hin. simpl in Hin. by list_cases Hin.
    + pose proof (step_effect_trans _ _ _ _ _ _ _ E1
        (step_effect_trans _ _ _ _ _ _ _ E2
        (step_effect_trans _ _ _ _ _ _ _ E3
        (step_effect_trans _ _ _ _ _ _ _ E4 E5)))) as (_ & Hcalls & _).
      eexists. split; [exact Hcalls|]. right.
      eexists _, _, _. split; [|split; [exact H4|]].
      { simpl. congruence. }
      left. destruct O5 as [(? & _ & F5)|(? & _)]; [|done].
      split_and!; [done|eauto| |done].
      intros t Hin. simpl in Hin. by list_cases Hin.
    + destruct O5 as [(? & ? & _)|(R5 & Hup & Hp & Hnd & F5)]; [done|].
      injection R5 as ->. simpl in E6, E7, W6, F7.
      pose proof (step_effect_trans _ _ _ _ _ _ _ E1
        (step_effect_trans _ _ _ _ _ _ _ E2
        (step_effect_trans _ _ _ _ _ _ _ E3
        (step_effect_trans _ _ _ _ _ _ _ E4
        (step_effect_trans _ _ _ _ _ _ _ E5
        (step_effect_trans _ _ _ _ _ _ _ E6 E7)))))) as (_ & Hcalls & _).
      eexists. split; [exact Hcalls|]. right.
      eexists _, _, _. split; [|split; [exact H4|]].
      { simpl. congruence. }
      right. split_and!; try done.
      assert (forall t, CallWrite p t ∈
                [CallLogInfo (start_message p)] ++ [CallModelDump doc dump_kwargs]
                ++ [CallEncode m] ++ [CallMkdir (parent p) true true]
                ++ [CallOpen p mode_w (lit "utf-8")] ++ [CallWrite p text]
                ++ [CallClose p] -> t = text) as Ht.
      { intros t Hin. simpl in Hin. by list_cases Hin. }
      destruct W6 as [(e' & _ & F6)
                     |(old & data & Henc & Hold & [[? _]|(e' & k & _ & F6)])];
        try done.
      * (* nothing reached the file *)
        exists text, []. split_and!; try done.
        -- by rewrite F7, F6, F5.
        -- intros. apply prefix_nil.
        -- intros e0 He0. split; [done|]. f_equal. by apply Hraise.
      * rewrite F5, lookup_insert_eq in Hold. injection Hold as <-.
        exists text, (take k data). split_and!; try done.
        -- rewrite F7, F6, F5. by rewrite insert_insert_eq.
        -- intros data' Hd'. assert (data' = data) as -> by congruence.
           apply prefix_take.
        -- intros e0 He0. by rewrite He0 in Henc.
Qed.

Lemma no_fs_call_open (cs : list Call) c :
  forallb (fun c => negb (is_fs_call c)) cs = true -> c ∈ cs ->
  is_fs_call c = false.
Proof.
  intros Hall Hin. apply list_elem_of_In in Hin.
  rewrite forallb_forall in Hall. specialize (Hall _ Hin).
  by destruct (is_fs_call c).
Qed.

(** ** What the log says *)

(** X1.  The start record is logged as soon as the codec check has passed;
    the success record is logged exactly when the export returns. *)
Theorem log_tells_outcome doc filename w r w' :
  save_as_toon host doc filename w = (r, w') ->
  log w' = log w ++
    match toon host with
    | None => []
    | Some _ =>
        emitted host (start_message filename) ++
        match r with
        | Ok _ => emitted host (done_message filename)
        | Raise _ => []
        end
    end.
Proof.
  intros Hrun. destruct (toon host) as [codec|] eqn:Htoon.
  - destruct (save_as_toon_inv host codec _ _ _ _ _ Htoon Hrun)
      as [[-> Hc]|(e & -> & Hf)].
    + by apply completes_effect in Hc
        as (m & text & data & f1 & _ & _ & _ & (_ & _ & Hlog) & _).
    + apply fails_at_effect in Hf as (_ & Hlog & _).
      by rewrite (right_id_L [] (++)).
  - unfold save_as_toon, raise in Hrun. rewrite Htoon in Hrun.
    injection Hrun as <- <-. by rewrite (right_id_L [] (++)).
Qed.

(** ** Failures after the file was opened *)

(** X2.  The file is truncated when it is opened, before anything is
    written: an export that fails in [write] leaves a regular file at
    the destination that holds a prefix of the new bytes and nothing of
    what was there, and no byte at all when the text cannot be
    encoded. *)
Theorem failed_write_leaves_prefix doc filename w e w' cs text :
  save_as_toon host doc filename w = (Raise e, w') ->
  calls w' = calls w ++ cs ->
  CallWrite filename text ∈ cs ->
  exists d,
    stat (fs w') filename = inr (File d) /\
    (forall data,
       utf8_from 0 (translate_newlines (platform host) text) = Ok data ->
       d `prefix_of` data) /\
    (forall e',
       utf8_from 0 (translate_newlines (platform host) text) = Raise e' ->
       d = [] /\ e = e').
Proof.
  intros Hrun Hcalls Hin. destruct (toon host) as [codec|] eqn:Htoon.
  - destruct (export_shape codec _ _ _ _ _ Htoon Hrun) as (cs' & Hcs & Hshape).
    assert (cs' = cs) as -> by (rewrite Hcs in Hcalls; by simplify_list_eq).
    destruct Hshape as [(_ & _ & Hno)
      |(wa & rm & wm & Hwa & Hmk &
        [(_ & _ & Hnw & _)
        |(-> & Hp & Hup & Hnd & text' & d & Hone & Hfs & _ & Hpre & Hemp)])].
    + by apply (no_fs_call_open _ _ Hno) in Hin.
    + by apply Hnw in Hin.
    + apply Hone in Hin as ->. exists d.
      rewrite <- !text_encode_utf8. split_and!.
      * rewrite Hfs. destruct filename as [|c up]; [done|].
        by apply stat_insert_self.
      * done.
      * intros e' He'. destruct (Hemp _ He') as [-> [= ->]]. done.
  - unfold save_as_toon, raise in Hrun. rewrite Htoon in Hrun.
    injection Hrun as <- <-. rewrite <- (right_id_L [] (++) (calls w)) in Hcalls at 1.
    apply (inj (app (calls w))) in Hcalls as <-. by apply elem_of_nil in Hin.
Qed.

(** ** Exports into a directory that exists *)

(** X3.  When the parent directory is already there the export touches the
    destination and nothing else: [mkdir] makes nothing, whatever the
    outcome of the run. *)
Theorem existing_parent_only_destination doc filename w r w' :
  is_dir (fs w) (parent filename) = true ->
  save_as_toon host doc filename w = (r, w') ->
  forall q, q <> filename -> fs w' !! q = fs w !! q.
Proof.
  intros Hpar Hrun q Hq. destruct (toon host) as [codec|] eqn:Htoon.
  - assert (stat (fs w) (parent filename) = inr Dir) as Hst.
    { unfold is_dir in Hpar.
      by destruct (stat (fs w) (parent filename)) as [?|[?|]]. }
    destruct (export_shape codec _ _ _ _ _ Htoon Hrun)
      as (cs & _ & [(-> & _)|(wa & rm & wm & Hwa & Hmk & Hcase)]); [done|].
    rewrite <- Hwa in Hst. apply (mkdir_existing _ _ _ _ _ _ Hst) in Hmk as ->.
    destruct Hcase as [(-> & _)|(_ & _ & _ & _ & text & d & _ & -> & _)].
    + by rewrite Hwa.
    + rewrite lookup_insert_ne by done. by rewrite Hwa.
  - unfold save_as_toon, raise in Hrun. rewrite Htoon in Hrun.
    by injection Hrun as <- <-.
Qed.

(** X4.  Exporting the same document to the same path a second time leaves
    the tree as the first export left it. *)
Theorem second_export_same_tree doc filename w0 w1 w2 :
  save_as_toon host doc filename w0 = (Ok tt, w1) ->
  save_as_toon host doc filename w1 = (Ok tt, w2) ->
  fs w2 = fs w1.
Proof.
  intros Hrun1 Hrun2. destruct (toon host) as [codec|] eqn:Htoon.
  - destruct (save_as_toon_inv host codec _ _ _ _ _ Htoon Hrun1)
      as [[_ Hc1]|(e & ? & _)]; [|done].
    destruct (save_as_toon_inv host codec _ _ _ _ _ Htoon Hrun2)
      as [[_ Hc2]|(e & ? & _)]; [|done].
    pose proof (completes_file host _ _ _ _ _ Hc1) as (_ & _ & _ & _ & _ & _ & _ & Hpar).
    apply completes_effect in Hc1
      as (m & text & data & f1 & Hm & Ht & Hd & (Hh & _) & _ & _ & _ & _ & Hfs1).
    apply completes_effect in Hc2
      as (m2 & text2 & data2 & f2 & Hm2 & Ht2 & Hd2 & _ & _ & _ & _ & _ & Hfs2).
    rewrite Hh in Hm2.
    assert (m2 = m) as -> by congruence.
    assert (text2 = text) as -> by congruence.
    assert (data2 = data) as -> by congruence.
    destruct (export_shape codec _ _ _ _ _ Htoon Hrun2)
      as (cs & _ & [(_ & [e ?] & _)|(wa & rm & wm & Hwa & Hmk & Hcase)]); [done|].
    rewrite <- Hwa in Hpar.
    apply (mkdir_existing _ _ _ _ _ _ Hpar) in Hmk as ->.
    destruct Hcase as [(_ & [e ?] & _)|(_ & _ & _ & _ & text' & d & _ & Hfs & _)];
      [done|].
    assert (d = data) as ->.
    { assert (fs w2 !! filename = Some (File d)) as Hl
        by (by rewrite Hfs, lookup_insert_eq).
      rewrite Hfs2, lookup_insert_eq in Hl. by injection Hl. }
    rewrite Hfs, Hwa, Hfs1. by rewrite insert_insert_eq.
  - unfold save_as_toon in Hrun1. by rewrite Htoon in Hrun1.
Qed.

(** ** Destinations that cannot be written *)

Lemma is_dir_lookup (f : gmap Path Node) c up :
  is_dir f (c :: up) = true -> stat f up = inr Dir /\ f !! (c :: up) = Some Dir.
Proof.
  unfold is_dir. simpl. destruct (stat f up) as [?|[?|]]; try done.
  destruct (f !! (c :: up)) as [[?|]|]; done.
Qed.

Lemma is_dir_parent (f : gmap Path Node) p :
  is_dir f p = true -> stat f (parent p) = inr Dir.
Proof.
  destruct p as [|c up]; [done|]. by intros [? _]%is_dir_lookup.
Qed.

Lemma mkdir_existing_ok p w :
  stat (fs w) p = inr Dir -> denied host (fs w) (SysMkdir p) = None ->
  mkdir host p true true w = (Ok tt, w).
Proof.
  intros Hst Hperm.
  assert (os_mkdir host p w = (Raise (OSError EEXIST p), w)) as Hos.
  { unfold os_mkdir. rewrite Hperm. destruct p as [|c up]; [done|].
    simpl in Hst. destruct (stat (fs w) up) as [?|[?|]]; try done.
    by destruct (fs w !! (c :: up)). }
  assert (mkdir_exists p true (OSError EEXIST p) w = (Ok tt, w)) as Hex.
  { unfold mkdir_exists, is_dir. by rewrite Hst. }
  destruct p; simpl; unfold try_except; by rewrite Hos.
Qed.

(** X5.  When the destination is a directory the export raises and the
    tree is as before; if the document dumps, the codec encodes and no
    permission error comes in the way, the exception is the
    [IsADirectoryError] of [open]. *)
Theorem destination_is_directory doc filename w r w' :
  is_dir (fs w) filename = true ->
  save_as_toon host doc filename w = (r, w') ->
  (exists e, r = Raise e) /\
  fs w' = fs w /\
  (forall codec m text,
     toon host = Some codec ->
     model_dump (heap w doc) dump_kwargs = Ok m ->
     encode codec m = Ok text ->
     permitted host filename ->
     r = Raise (OSError EISDIR filename)).
Proof.
  intros Hdir Hrun.
  pose proof (is_dir_parent _ _ Hdir) as Hpar.
  destruct (toon host) as [codec|] eqn:Htoon.
  - destruct (export_shape codec _ _ _ _ _ Htoon Hrun)
      as (cs & _ & Hshape).
    assert ((exists e, r = Raise e) /\ fs w' = fs w) as [Hr Hfs].
    { destruct Hshape as [(-> & ? & _)|(wa & rm & wm & Hwa & Hmk & Hcase)];
        [done|].
      rewrite <- Hwa in Hpar.
      apply (mkdir_existing _ _ _ _ _ _ Hpar) in Hmk as ->.
      destruct Hcase as [(-> & ? & _)|(_ & Hp & _ & Hnd & _)]; [done|].
      destruct filename as [|c up]; [done|].
      apply is_dir_lookup in Hdir as [_ Hl]. by rewrite Hwa in Hnd. }
    split_and!; [done..|].
    intros codec' m text [= <-] Hm Ht Hperm.
    destruct Hr as [e ->]. f_equal.
    destruct (save_as_toon_inv host codec _ _ _ _ _ Htoon Hrun)
      as [[? _]|(e0 & [= <-] & Hf)]; [done|].
    destruct Hf as [w1 e w'' H1 H2|w1 m0 w2 e w'' H1 H2 H3
                   |w1 m0 w2 text0 w3 e w'' H1 H2 H3 H4
                   |w1 m0 w2 text0 w3 w4 e w'' H1 H2 H3 H4 H5
                   |w1 m0 w2 text0 w3 w4 f w5 e w6 w'' H1 H2 H3 H4 H5 H6 H7];
      apply log_info_effect in H1 as [[Hh1 _] F1];
      apply doc_model_dump_effect in H2 as (R2 & _ & F2);
      rewrite Hh1, Hm in R2; try done; injection R2 as <-;
      apply toon_encode_effect in H3 as (R3 & _ & F3);
      rewrite Ht in R3; try done; injection R3 as <-.
    all: assert (fs w3 = fs w) as F by congruence.
    all: unfold Path_mkdir, bind, called in H4.
    all: rewrite mkdir_existing_ok in H4;
           [|by (simpl; rewrite F)
            |simpl; apply Hperm; simpl;
             destruct filename; [done|by apply suffix_cons_r]];
           try done; injection H4 as <-.
    + unfold open_, bind, called, ret in H5.
      assert (os_open host filename mode_w
                (add_call (CallOpen filename mode_w (lit "utf-8"))
                   (add_call (CallMkdir (parent filename) true true) w3))
              = (Raise (OSError EISDIR filename),
                 add_call (CallOpen filename mode_w (lit "utf-8"))
                   (add_call (CallMkdir (parent filename) true true) w3)))
        as Hos.
      { unfold os_open. cbn [fs add_call]. rewrite F, Hperm by done.
        destruct filename as [|c up]; [done|].
        apply is_dir_lookup in Hdir as [-> ->]. done. }
      rewrite Hos in H5. by injection H5.
    + apply open_effect in H5 as [_ [(? & ? & _)|(_ & _ & Hp & Hnd & _)]];
        [done|].
      cbn [fs add_call] in Hnd. rewrite F in Hnd.
      destruct filename as [|c up]; [done|].
      by apply is_dir_lookup in Hdir as [_ ?].
  - unfold save_as_toon, raise in Hrun. rewrite Htoon in Hrun.
    injection Hrun as <- <-. split_and!; [eauto|done|done].
Qed.

(** X6.  A regular file where the parent directory should be, or above
    it, makes the export raise in [mkdir]: the file is never opened and
    the tree is as before. *)
Theorem parent_is_regular_file doc filename w r w' cs :
  (exists d, stat (fs w) (parent filename) = inr (File d)) \/
  stat (fs w) (parent filename) = inl ENOTDIR ->
  save_as_toon host doc filename w = (r, w') ->
  calls w' = calls w ++ cs ->
  (exists e, r = Raise e) /\
  fs w' = fs w /\
  CallOpen filename mode_w (lit "utf-8") ∉ cs.
Proof.
  intros Hblk Hrun Hcalls. destruct (toon host) as [codec|] eqn:Htoon.
  - destruct (export_shape codec _ _ _ _ _ Htoon Hrun) as (cs' & Hcs & Hshape).
    assert (cs' = cs) as -> by (rewrite Hcs in Hcalls; by simplify_list_eq).
    destruct Hshape as [(-> & ? & Hno)|(wa & rm & wm & Hwa & Hmk & Hcase)].
    + split_and!; [done..|]. intros Hin.
      by apply (no_fs_call_open _ _ Hno) in Hin.
    + rewrite <- Hwa in Hblk.
      apply (mkdir_blocked _ _ _ _ _ _ Hblk) in Hmk as [-> [e ->]].
      destruct Hcase as [(-> & ? & _ & Hopen)|(? & _)]; [|done].
      split_and!; [done..|]. intros Hin. by apply Hopen in Hin.
  - unfold save_as_toon, raise in Hrun. rewrite Htoon in Hrun.
    injection Hrun as <- <-.
    rewrite <- (right_id_L [] (++) (calls w)) in Hcalls at 1.
    apply (inj (app (calls w))) in Hcalls as <-.
    split_and!; [eauto|done|]. by intros ?%elem_of_nil.
Qed.

(** X7.  An export returns only where C5 lets it: the destination is not
    a directory, and its parent is a directory or is missing. *)
Theorem export_returns_only_if doc filename w w' :
  save_as_toon host doc filename w = (Ok tt, w') ->
  is_dir (fs w) filename = false /\
  (stat (fs w) (parent filename) = inr Dir \/
   stat (fs w) (parent filename) = inl ENOENT).
Proof.
  intros Hrun. destruct (toon host) as [codec|] eqn:Htoon.
  - destruct (export_shape codec _ _ _ _ _ Htoon Hrun)
      as (cs & _ & [(_ & [e ?] & _)|(wa & rm & wm & Hwa & Hmk & Hcase)]); [done|].
    destruct Hcase as [(_ & [e ?] & _)|(-> & Hp & _ & Hnd & _)]; [done|].
    assert (stat (fs w) (parent filename) = inr Dir \/
            stat (fs w) (parent filename) = inl ENOENT) as Hpar.
    { destruct (stat (fs w) (parent filename)) as [e|[d|]] eqn:Hst; [| |by left].
      - apply stat_errno in Hst as Herr. destruct Herr as [->| ->]; [by right|].
        rewrite <- Hwa in Hst.
        by destruct (mkdir_blocked _ _ _ _ _ _ (or_intror Hst) Hmk) as [_ [? ?]].
      - rewrite <- Hwa in Hst.
        by destruct (mkdir_blocked _ _ _ _ _ _
                       (or_introl (ex_intro _ d Hst)) Hmk) as [_ [? ?]]. }
    split; [|done].
    destruct (is_dir (fs w) filename) eqn:Hdir; [|done]. exfalso.
    pose proof (is_dir_parent _ _ Hdir) as Hst. rewrite <- Hwa in Hst.
    apply (mkdir_existing _ _ _ _ _ _ Hst) in Hmk as ->.
    destruct filename as [|c up]; [done|].
    apply is_dir_lookup in Hdir as [_ Hl]. by rewrite Hwa in Hnd.
  - unfold save_as_toon in Hrun. by rewrite Htoon in Hrun.
Qed.

(** ** What is left behind *)

(** X8.  Once the file is being opened the parent directory exists, and it
    stays: a run that fails at [open] or in [write] leaves the
    directories it made. *)
Theorem parent_exists_once_open_is_reached doc filename w r w' cs :
  save_as_toon host doc filename w = (r, w') ->
  calls w' = calls w ++ cs ->
  CallOpen filename mode_w (lit "utf-8") ∈ cs ->
  is_dir (fs w') (parent filename) = true.
Proof.
  intros Hrun Hcalls Hin. destruct (toon host) as [codec|] eqn:Htoon.
  - destruct (export_shape codec _ _ _ _ _ Htoon Hrun) as (cs' & Hcs & Hshape).
    assert (cs' = cs) as -> by (rewrite Hcs in Hcalls; by simplify_list_eq).
    destruct Hshape as [(_ & _ & Hno)|(wa & rm & wm & Hwa & Hmk & Hcase)].
    + by apply (no_fs_call_open _ _ Hno) in Hin.
    + destruct Hcase as [(-> & _ & _ & Hopen)
                        |(-> & Hp & Hup & _ & text & d & _ & -> & _)].
      * rewrite (Hopen Hin) in Hmk. by apply mkdir_ok_is_dir in Hmk.
      * unfold is_dir. destruct filename as [|c up]; [done|].
        cbn [parent tail] in *.
        by rewrite stat_insert_longer, Hup by (simpl; lia).
  - unfold save_as_toon, raise in Hrun. rewrite Htoon in Hrun.
    injection Hrun as <- <-.
    rewrite <- (right_id_L [] (++) (calls w)) in Hcalls at 1.
    apply (inj (app (calls w))) in Hcalls as <-. by apply elem_of_nil in Hin.
Qed.

(** X9.  Whatever its outcome, an export of a well-formed tree leaves a
    well-formed tree. *)
Theorem export_keeps_tree_well_formed doc filename w r w' :
  wf (fs w) ->
  save_as_toon host doc filename w = (r, w') ->
  wf (fs w').
Proof.
  intros Hwf Hrun. destruct (toon host) as [codec|] eqn:Htoon.
  - destruct (export_shape codec _ _ _ _ _ Htoon Hrun)
      as (cs & _ & [(-> & _)|(wa & rm & wm & Hwa & Hmk & Hcase)]); [done|].
    rewrite <- Hwa in Hwf. apply (mkdir_wf _ _ _ _ _ _ Hwf) in Hmk.
    destruct Hcase as [(-> & _)|(_ & Hp & Hup & Hnd & text & d & _ & -> & _)];
      [done|].
    by apply wf_insert.
  - unfold save_as_toon, raise in Hrun. rewrite Htoon in Hrun.
    by injection Hrun as <- <-.
Qed.

(** ** Line ends *)

Lemma utf8_from_pos p q s d : utf8_from p s = Ok d -> utf8_from q s = Ok d.
Proof.
  revert p q d. induction s as [|c rest IH]; intros p q d; [done|]. simpl.
  destruct (utf8_char c); [|done].
  destruct (utf8_from (S p) rest) as [tl|] eqn:Hrest; [|done].
  intros [= <-]. by rewrite (IH _ (S q) _ Hrest).
Qed.

Lemma translate_newlines_posix s : translate_newlines Posix s = s.
Proof.
  unfold translate_newlines. induction s as [|c rest IH]; [done|].
  cbn [flat_map]. rewrite IH. destruct (c =? 10) eqn:Hc; [|done].
  apply N.eqb_eq in Hc as ->. done.
Qed.

Lemma utf8_from_windows p s d :
  utf8_from p (translate_newlines Windows s) = Ok d ->
  exists d0, utf8_from p s = Ok d0 /\
             length d = (length d0 + count_lf s)%nat.
Proof.
  revert p d. induction s as [|c rest IH]; intros p d.
  - intros [= <-]. by exists [].
  - unfold translate_newlines. cbn [flat_map count_lf].
    fold (translate_newlines Windows rest).
    destruct (c =? 10) eqn:Hc.
    + apply N.eqb_eq in Hc as ->. cbn [linesep app utf8_from].
      change (utf8_char 13) with (Some [13]).
      change (utf8_char 10) with (Some [10]).
      destruct (utf8_from (S (S p)) (translate_newlines Windows rest))
        as [tl|] eqn:Htl; [|done].
      intros [= <-]. apply IH in Htl as (d0 & Hd0 & Hlen).
      rewrite (utf8_from_pos _ (S p) _ _ Hd0).
      eexists. split; [done|]. simpl. lia.
    + cbn [app utf8_from].
      destruct (utf8_char c) as [bs|]; [|done].
      destruct (utf8_from (S p) (translate_newlines Windows rest))
        as [tl|] eqn:Htl; [|done].
      intros [= <-]. apply IH in Htl as (d0 & -> & Hlen).
      eexists. split; [done|]. rewrite !length_app. lia.
Qed.

(** X10.  The file is opened in text mode without a [newline] argument: on
    POSIX it holds the UTF-8 bytes of the codec's text as they are, on
    Windows every line feed is written as two bytes, so the file is
    longer by the number of line feeds. *)
Theorem file_bytes_by_platform doc filename w w' :
  save_as_toon host doc filename w = (Ok tt, w') ->
  exists codec m text data d0,
    toon host = Some codec /\
    model_dump (heap w doc) dump_kwargs = Ok m /\
    encode codec m = Ok text /\
    stat (fs w') filename = inr (File data) /\
    utf8_from 0 text = Ok d0 /\
    match platform host with
    | Posix => data = d0
    | Windows => length data = (length d0 + count_lf text)%nat
    end.
Proof.
  intros Hrun. destruct (toon host) as [codec|] eqn:Htoon.
  - destruct (save_as_toon_inv host codec _ _ _ _ _ Htoon Hrun)
      as [[_ Hc]|(e & ? & _)]; [|done].
    apply completes_file in Hc as (m & text & data & Hm & Ht & Hd & Hfile & _).
    destruct (platform host).
    + rewrite translate_newlines_posix in Hd.
      by exists codec, m, text, data, data.
    + apply utf8_from_windows in Hd as (d0 & Hd0 & Hlen).
      by exists codec, m, text, data, d0.
  - unfold save_as_toon in Hrun. by rewrite Htoon in Hrun.
Qed.

End More.

(** * Examples *)

Example sample_dump :
  model_dump Sample.document dump_kwargs
  = Ok (JDict [(lit "schema_name", JStr (lit "DoclingDocument"));
               (lit "name", JStr (lit "report"));
               (lit "$ref", JStr (lit "#/body"))]).
Proof. reflexivity. Qed.

Example sample_run_returns :
  fst (save_as_toon Sample.host 0 Sample.dest Sample.w0) = Ok tt.
Proof. vm_compute. reflexivity. Qed.

Example sample_run_file :
  stat (fs Sample.w1) Sample.dest
  = inr (File (lit "schema_name: DoclingDocument" ++ [10]
               ++ lit "name: report" ++ [10]
               ++ lit "$ref: #/body" ++ [10])).
Proof. vm_compute. reflexivity. Qed.

Example sample_run_creates_directories :
  is_dir (fs Sample.w1) [lit "out"] = true /\
  is_dir (fs Sample.w1) [lit "docs"; lit "out"] = true /\
  exists_ (fs Sample.w0) [lit "out"] = false.
Proof. vm_compute. auto. Qed.

(** A regular file where a directory is needed stops the export at
    [mkdir] with [NotADirectoryError]. *)
Example file_in_the_way :
  fst (save_as_toon Sample.host 0
         [lit "report.toon"; lit "sub"; lit "docs.txt"; lit "out"] Sample.w_out)
  = Raise (OSError ENOTDIR [lit "sub"; lit "docs.txt"; lit "out"]).
Proof. vm_compute. reflexivity. Qed.

(** On a full device the write raises and the file keeps what reached
    it. *)
Example disk_full :
  let (r, w') := save_as_toon Sample.host_disk_full 0 Sample.dest Sample.w0 in
  r = Raise (OSError ENOSPC Sample.dest) /\
  stat (fs w') Sample.dest = inr (File (lit "sch")).
Proof. vm_compute. auto. Qed.

Lemma sample_codec_nonempty : codec_nonempty Sample.codec.
Proof.
  intros m text Hfield. destruct m as [| | | | | |[|[k v] rest]]; try done.
  simpl. destruct (Sample.encode_scalar v); [|done].
  destruct (Sample.encode_entries rest); [|done].
  intros [= <-]. destruct k; done.
Qed.

Lemma sample_tree_wf : wf (fs Sample.w_out).
Proof.
  intros q n Hq. right. simpl in Hq.
  apply lookup_insert_Some in Hq as [[<- _]|[_ Hq]]; [done|].
  by apply lookup_singleton_Some in Hq as [<- _].
Qed.

(** * Witnesses *)

Lemma missing_codec_raises_first_witness :
  toon Sample.host_without_toon = None /\
  save_as_toon Sample.host_without_toon 0 Sample.dest Sample.w0
  = (Raise (ImportError import_error_message), Sample.w0) /\
  contains import_error_message (lit "'toon' library is required") = true /\
  contains import_error_message (lit "pip install toon") = true.
Proof.
  split; [reflexivity|].
  apply (missing_codec_raises_first Sample.host_without_toon 0 Sample.dest Sample.w0).
  reflexivity.
Defined.

Lemma export_steps_in_order_witness :
  save_as_toon Sample.host 0 Sample.dest Sample.w0 = (Ok tt, Sample.w1) /\
  exists codec m text,
    toon Sample.host = Some codec /\
    model_dump (heap Sample.w0 0%nat) dump_kwargs = Ok m /\
    encode codec m = Ok text /\
    calls Sample.w1 = calls Sample.w0 ++
      [CallLogInfo (start_message Sample.dest);
       CallModelDump 0%nat dump_kwargs;
       CallEncode m;
       CallMkdir (parent Sample.dest) true true;
       CallOpen Sample.dest mode_w (lit "utf-8");
       CallWrite Sample.dest text;
       CallClose Sample.dest;
       CallLogInfo (done_message Sample.dest)].
Proof.
  split; [vm_compute; reflexivity|].
  apply (export_steps_in_order Sample.host 0 Sample.dest Sample.w0 Sample.w1).
  vm_compute; reflexivity.
Defined.

Lemma model_dump_options_witness :
  save_as_toon Sample.host 0 Sample.dest Sample.w0 = (Ok tt, Sample.w1) /\
  exists cs,
    calls Sample.w1 = calls Sample.w0 ++ cs /\
    (forall d kw, CallModelDump d kw ∈ cs ->
       d = 0%nat /\
       kw = [("mode", AStr (lit "json")); ("exclude_none", ABool true);
             ("by_alias", ABool true)]%string) /\
    (is_Some (toon Sample.host) -> CallModelDump 0%nat dump_kwargs ∈ cs) /\
    (forall v, CallEncode v ∈ cs ->
       model_dump (heap Sample.w0 0%nat) dump_kwargs = Ok v).
Proof.
  split; [vm_compute; reflexivity|].
  apply (model_dump_options Sample.host 0 Sample.dest Sample.w0 (Ok tt) Sample.w1).
  vm_compute; reflexivity.
Defined.

Lemma second_export_overwrites_witness :
  save_as_toon Sample.host 0 Sample.dest Sample.w0 = (Ok tt, Sample.w1) /\
  save_as_toon Sample.host 1 Sample.dest Sample.w1 = (Ok tt, Sample.w2) /\
  exists codec data1 m2 text2 data2,
    toon Sample.host = Some codec /\
    stat (fs Sample.w1) Sample.dest = inr (File data1) /\
    model_dump (heap Sample.w1 1%nat) dump_kwargs = Ok m2 /\
    encode codec m2 = Ok text2 /\
    utf8_from 0 (translate_newlines (platform Sample.host) text2) = Ok data2 /\
    stat (fs Sample.w2) Sample.dest = inr (File data2) /\
    CallOpen Sample.dest mode_w (lit "utf-8") ∈ calls Sample.w2.
Proof.
  split; [vm_compute; reflexivity|]. split; [vm_compute; reflexivity|].
  apply (second_export_overwrites Sample.host 0 1 Sample.dest
           Sample.w0 Sample.w1 Sample.w2); vm_compute; reflexivity.
Defined.

Example second_export_content :
  stat (fs Sample.w2) Sample.dest = inr (File (lit "name: v2" ++ [10])).
Proof. vm_compute. reflexivity. Qed.

Lemma export_creates_parents_witness :
  let m := JDict [(lit "schema_name", JStr (lit "DoclingDocument"));
                  (lit "name", JStr (lit "report"));
                  (lit "$ref", JStr (lit "#/body"))] in
  let text := lit "schema_name: DoclingDocument" ++ [10]
              ++ lit "name: report" ++ [10]
              ++ lit "$ref: #/body" ++ [10] in
  stat (fs Sample.w_out) (parent Sample.dest) = inl ENOENT /\
  exists w',
    save_as_toon Sample.host 0 Sample.dest Sample.w_out = (Ok tt, w') /\
    (forall q, q `suffix_of` parent Sample.dest -> is_dir (fs w') q = true) /\
    stat (fs w') Sample.dest = inr (File text) /\
    calls w' = calls Sample.w_out ++ full_trace 0%nat Sample.dest m text.
Proof.
  intros m text. split; [vm_compute; reflexivity|].
  apply (export_creates_parents Sample.host Sample.codec 0 Sample.dest
           Sample.w_out m text text).
  - reflexivity.
  - vm_compute; reflexivity.
  - vm_compute; reflexivity.
  - vm_compute; reflexivity.
  - exact sample_tree_wf.
  - intros f sc _. reflexivity.
  - vm_compute; reflexivity.
  - right. vm_compute; reflexivity.
Defined.

Lemma export_file_not_empty_witness :
  save_as_toon Sample.host 0 Sample.dest Sample.w0 = (Ok tt, Sample.w1) /\
  exists_ (fs Sample.w1) Sample.dest = true /\
  exists n, st_size (fs Sample.w1) Sample.dest = Some n /\ (0 < n)%nat.
Proof.
  split; [vm_compute; reflexivity|].
  apply (export_file_not_empty Sample.host Sample.codec 0 Sample.dest Sample.w0
           (JDict [(lit "schema_name", JStr (lit "DoclingDocument"));
                   (lit "name", JStr (lit "report"));
                   (lit "$ref", JStr (lit "#/body"))]) Sample.w1).
  - reflexivity.
  - exact sample_codec_nonempty.
  - vm_compute; reflexivity.
  - reflexivity.
  - vm_compute; reflexivity.
Defined.

Example sample_file_size :
  st_size (fs Sample.w1) Sample.dest = Some 55%nat.
Proof. vm_compute. reflexivity. Qed.

(** The codec rejects the list in the third document; the export
    raises its [TypeError]. *)
Lemma failures_propagate_witness :
  let e := PyError "TypeError" (lit "unsupported value") in
  let w' := snd (save_as_toon Sample.host 2 Sample.dest Sample.w0) in
  toon Sample.host = Some Sample.codec /\
  save_as_toon Sample.host 2 Sample.dest Sample.w0 = (Raise e, w') /\
  (fails_at Sample.host Sample.codec 2 Sample.dest Sample.w0 e w' <->
   save_as_toon Sample.host 2 Sample.dest Sample.w0 = (Raise e, w')).
Proof.
  intros e w'. split; [reflexivity|]. split; [vm_compute; reflexivity|].
  apply (failures_propagate Sample.host Sample.codec 2 Sample.dest Sample.w0 e w').
  reflexivity.
Defined.

Lemma export_effects_witness :
  save_as_toon Sample.host 0 Sample.dest Sample.w_out
  = (Ok tt, snd (save_as_toon Sample.host 0 Sample.dest Sample.w_out)) /\
  let w' := snd (save_as_toon Sample.host 0 Sample.dest Sample.w_out) in
  heap w' = heap Sample.w_out /\
  export_frame (fs Sample.w_out) (fs w') Sample.dest /\
  (exists m text n,
     calls w' = calls Sample.w_out
                ++ take n (full_trace 0%nat Sample.dest m text)) /\
  (exists k,
     log w' = log Sample.w_out ++
       take k (emitted Sample.host (start_message Sample.dest)
               ++ emitted Sample.host (done_message Sample.dest))) /\
  (info_enabled Sample.host = false \/ toon Sample.host = None ->
   log w' = log Sample.w_out).
Proof.
  split; [vm_compute; reflexivity|].
  apply (export_effects Sample.host 0 Sample.dest Sample.w_out (Ok tt)).
  vm_compute; reflexivity.
Defined.

(** With the logger enabled for INFO an export emits two records: an
    effect that is neither a directory nor the file. *)
Lemma export_logs_counterexample :
  save_as_toon Sample.host 0 Sample.dest Sample.w0 = (Ok tt, Sample.w1) /\
  log Sample.w0 = [] /\
  log Sample.w1 =
    [{| levelname := "INFO";
        message := lit "Exporting document to TOON format: out/docs/report.toon" |};
     {| levelname := "INFO";
        message := lit "Successfully wrote TOON output to out/docs/report.toon" |}] /\
  log Sample.w1 <> log Sample.w0.
Proof.
  split; [vm_compute; reflexivity|]. split; [reflexivity|].
  split; [vm_compute; reflexivity|]. vm_compute. discriminate.
Qed.

Lemma conversion_failure_keeps_fs_witness :
  let e := PyError "PydanticSerializationError" (lit "Unable to serialize") in
  model_dump (heap Sample.w_out 3%nat) dump_kwargs = Raise e /\
  exists w' cs,
    save_as_toon Sample.host 3 Sample.dest Sample.w_out = (Raise e, w') /\
    fs w' = fs Sample.w_out /\
    calls w' = calls Sample.w_out ++ cs /\
    forallb (fun c => negb (is_fs_call c)) cs = true.
Proof.
  intros e. split; [reflexivity|].
  apply (conversion_failure_keeps_fs Sample.host Sample.codec 3 Sample.dest
           Sample.w_out e).
  - reflexivity.
  - left. reflexivity.
Defined.

(** The same when the codec raises: the directory [out/docs] is not
    made. *)
Example encode_failure_keeps_fs :
  fst (save_as_toon Sample.host 2 Sample.dest Sample.w_out)
  = Raise (PyError "TypeError" (lit "unsupported value")) /\
  fs (snd (save_as_toon Sample.host 2 Sample.dest Sample.w_out))
  = fs Sample.w_out /\
  exists_ (fs (snd (save_as_toon Sample.host 2 Sample.dest Sample.w_out)))
    (parent Sample.dest) = false.
Proof. split_and!; vm_compute; reflexivity. Qed.

(** * Further examples and witnesses *)

(** On Windows the same export writes a carriage return before each
    line feed. *)
Example windows_line_ends :
  stat (fs (snd (save_as_toon
                   {| toon := Some Sample.codec; info_enabled := false;
                      platform := Windows; denied := fun _ _ => None;
                      short_write := fun _ _ _ => 0%nat |}
                   1 [lit "v2.toon"] Sample.w0)))
    [lit "v2.toon"]
  = inr (File (lit "name: v2" ++ [13; 10])).
Proof. vm_compute. reflexivity. Qed.

Lemma log_tells_outcome_witness :
  save_as_toon Sample.host 0 Sample.dest Sample.w0 = (Ok tt, Sample.w1) /\
  log Sample.w1 = log Sample.w0 ++
    match toon Sample.host with
    | None => []
    | Some _ =>
        emitted Sample.host (start_message Sample.dest) ++
        match @Ok unit tt with
        | Ok _ => emitted Sample.host (done_message Sample.dest)
        | Raise _ => []
        end
    end.
Proof.
  split; [vm_compute; reflexivity|].
  apply (log_tells_outcome Sample.host 0 Sample.dest Sample.w0 (Ok tt) Sample.w1).
  vm_compute; reflexivity.
Defined.

Lemma failed_write_leaves_prefix_witness :
  let e := OSError ENOSPC Sample.dest in
  let w' := snd (save_as_toon Sample.host_disk_full 0 Sample.dest Sample.w0) in
  let text := lit "schema_name: DoclingDocument" ++ [10]
              ++ lit "name: report" ++ [10]
              ++ lit "$ref: #/body" ++ [10] in
  save_as_toon Sample.host_disk_full 0 Sample.dest Sample.w0 = (Raise e, w') /\
  exists d,
    stat (fs w') Sample.dest = inr (File d) /\
    (forall data,
       utf8_from 0 (translate_newlines (platform Sample.host_disk_full) text)
       = Ok data -> d `prefix_of` data) /\
    (forall e',
       utf8_from 0 (translate_newlines (platform Sample.host_disk_full) text)
       = Raise e' -> d = [] /\ e = e').
Proof.
  intros e w' text. split; [vm_compute; reflexivity|].
  apply (failed_write_leaves_prefix Sample.host_disk_full 0 Sample.dest
           Sample.w0 e w' (calls w') text).
  - vm_compute; reflexivity.
  - vm_compute; reflexivity.
  - apply list_elem_of_In. vm_compute. tauto.
Defined.

Lemma existing_parent_only_destination_witness :
  is_dir (fs Sample.w1) (parent Sample.dest) = true /\
  forall q, q <> Sample.dest -> fs Sample.w2 !! q = fs Sample.w1 !! q.
Proof.
  split; [vm_compute; reflexivity|].
  apply (existing_parent_only_destination Sample.host 1 Sample.dest
           Sample.w1 (Ok tt) Sample.w2).
  - vm_compute; reflexivity.
  - vm_compute; reflexivity.
Defined.

Lemma second_export_same_tree_witness :
  save_as_toon Sample.host 0 Sample.dest Sample.w0 = (Ok tt, Sample.w1) /\
  fs (snd (save_as_toon Sample.host 0 Sample.dest Sample.w1)) = fs Sample.w1.
Proof.
  split; [vm_compute; reflexivity|].
  apply (second_export_same_tree Sample.host 0 Sample.dest Sample.w0 Sample.w1
           (snd (save_as_toon Sample.host 0 Sample.dest Sample.w1)));
    vm_compute; reflexivity.
Defined.

Lemma destination_is_directory_witness :
  let r := fst (save_as_toon Sample.host 0 [lit "out"] Sample.w_out) in
  let w' := snd (save_as_toon Sample.host 0 [lit "out"] Sample.w_out) in
  is_dir (fs Sample.w_out) [lit "out"] = true /\
  (exists e, r = Raise e) /\
  fs w' = fs Sample.w_out /\
  (forall codec m text,
     toon Sample.host = Some codec ->
     model_dump (heap Sample.w_out 0%nat) dump_kwargs = Ok m ->
     encode codec m = Ok text ->
     permitted Sample.host [lit "out"] ->
     r = Raise (OSError EISDIR [lit "out"])).
Proof.
  intros r w'. split; [vm_compute; reflexivity|].
  apply (destination_is_directory Sample.host 0 [lit "out"] Sample.w_out r w').
  - vm_compute; reflexivity.
  - vm_compute; reflexivity.
Defined.

Example directory_destination_error :
  fst (save_as_toon Sample.host 0 [lit "out"] Sample.w_out)
  = Raise (OSError EISDIR [lit "out"]).
Proof. vm_compute. reflexivity. Qed.

Lemma parent_is_regular_file_witness :
  let p := [lit "report.toon"; lit "docs.txt"; lit "out"] in
  let r := fst (save_as_toon Sample.host 0 p Sample.w_out) in
  let w' := snd (save_as_toon Sample.host 0 p Sample.w_out) in
  stat (fs Sample.w_out) (parent p) = inr (File (lit "x")) /\
  (exists e, r = Raise e) /\
  fs w' = fs Sample.w_out /\
  CallOpen p mode_w (lit "utf-8") ∉ calls w'.
Proof.
  intros p r w'. split; [vm_compute; reflexivity|].
  apply (parent_is_regular_file Sample.host 0 p Sample.w_out r w' (calls w')).
  - left. exists (lit "x"). vm_compute; reflexivity.
  - vm_compute; reflexivity.
  - vm_compute; reflexivity.
Defined.

Lemma export_returns_only_if_witness :
  save_as_toon Sample.host 0 Sample.dest Sample.w0 = (Ok tt, Sample.w1) /\
  is_dir (fs Sample.w0) Sample.dest = false /\
  (stat (fs Sample.w0) (parent Sample.dest) = inr Dir \/
   stat (fs Sample.w0) (parent Sample.dest) = inl ENOENT).
Proof.
  split; [vm_compute; reflexivity|].
  apply (export_returns_only_if Sample.host 0 Sample.dest Sample.w0 Sample.w1).
  vm_compute; reflexivity.
Defined.

Lemma parent_exists_once_open_is_reached_witness :
  let w' := snd (save_as_toon Sample.host_disk_full 0 Sample.dest Sample.w0) in
  fst (save_as_toon Sample.host_disk_full 0 Sample.dest Sample.w0)
  = Raise (OSError ENOSPC Sample.dest) /\
  is_dir (fs Sample.w0) (parent Sample.dest) = false /\
  is_dir (fs w') (parent Sample.dest) = true.
Proof.
  intros w'. split; [vm_compute; reflexivity|].
  split; [vm_compute; reflexivity|].
  apply (parent_exists_once_open_is_reached Sample.host_disk_full 0 Sample.dest
           Sample.w0 (Raise (OSError ENOSPC Sample.dest)) w' (calls w')).
  - vm_compute; reflexivity.
  - vm_compute; reflexivity.
  - apply list_elem_of_In. vm_compute. tauto.
Defined.

Lemma export_keeps_tree_well_formed_witness :
  wf (fs Sample.w_out) /\
  wf (fs (snd (save_as_toon Sample.host 0 Sample.dest Sample.w_out))).
Proof.
  split; [exact sample_tree_wf|].
  apply (export_keeps_tree_well_formed Sample.host 0 Sample.dest Sample.w_out
           (Ok tt)).
  - exact sample_tree_wf.
  - vm_compute; reflexivity.
Defined.

Lemma file_bytes_by_platform_witness :
  save_as_toon Sample.host 0 Sample.dest Sample.w0 = (Ok tt, Sample.w1) /\
  exists codec m text data d0,
    toon Sample.host = Some codec /\
    model_dump (heap Sample.w0 0%nat) dump_kwargs = Ok m /\
    encode codec m = Ok text /\
    stat (fs Sample.w1) Sample.dest = inr (File data) /\
    utf8_from 0 text = Ok d0 /\
    match platform Sample.host with
    | Posix => data = d0
    | Windows => length data = (length d0 + count_lf text)%nat
    end.
Proof.
  split; [vm_compute; reflexivity|].
  apply (file_bytes_by_platform Sample.host 0 Sample.dest Sample.w0 Sample.w1).
  vm_compute; reflexivity.
Defined.
